(** * Real Estate Intelligence production server: handlers and their properties

    A shallow embedding of [server-production.js].  The server is an Express
    application whose route handlers forward requests to external
    collaborators (Firestore, Cloud Storage, Vertex AI, Sheets, Drive) and
    wrap the outcome in a JSON envelope.

    - Part 1 models the JavaScript values the handlers manipulate and the
      language primitives they rely on (truthiness, [ToString],
      [Array.prototype.join], [parseInt], destructuring defaults, object
      spread).
    - Part 2 models an [async] handler body as a program over collaborator
      calls, with JavaScript's [try]/[catch], and runs it against
      collaborators that are an arbitrary state machine.
    - Part 3 transcribes the configuration, the twelve route handlers, the
      error-handling middleware, the 404 handler, the route table and the
      chain of middleware a message goes through before it is routed.
    - Part 4 gives a reference document store, which plays the collaborator
      when a property speaks about the records a query returns, and models
      startup and shutdown ([initializeServices], [startServer], the signal
      handlers, in Part 4b).
    - Part 5 fixes the vocabulary of the properties, and Part 6 proves them.

    Strings are byte strings, the UTF-8 encodings of the JavaScript
    strings.  Response headers (those the CORS policy adds among them) and
    the access log, which is written after a response has been sent, are
    outside the model: no answer depends on them. *)

From Stdlib Require Import ZArith String Ascii DecimalString DecimalNat.
From stdpp Require Import base tactics option list strings gmap sorting.

Set Warnings "-register-all".
Local Open Scope string_scope.
Local Open Scope Z_scope.

(* ===================================================================== *)
(** * Part 1: JavaScript values *)
(* ===================================================================== *)

(** A finite number.  An integer that prints in plain decimal (magnitude
    below 10^21) is carried by its value; any other finite number is carried
    by the text [Number.prototype.toString] prints for it (["8.5"],
    ["1e+21"]), which identifies it.  The server performs no arithmetic on
    numbers. *)
Inductive number : Type :=
| NInt (z : Z)
| NDec (repr : string).

(** The values that occur in request bodies, query strings, document data
    and response bodies. *)
Inductive value : Type :=
| VUndefined
| VNull
| VBool (b : bool)
| VNum (n : number)
| VStr (s : string)
| VArr (items : list value)
| VObj (fields : list (string * value))
| VServerTimestamp            (* admin.firestore.FieldValue.serverTimestamp() *)
| VTimestamp (t : Z).         (* a Firestore Timestamp read back from a document *)

Definition fields : Type := list (string * value).

(** A value produced normally, or an exception carrying [error.message]. *)
Inductive outcome (A : Type) : Type :=
| Ok (a : A)
| Throw (message : string).
Arguments Ok {A} a.
Arguments Throw {A} message.

Definition obind {A B} (o : outcome A) (k : A -> outcome B) : outcome B :=
  match o with
  | Ok a => k a
  | Throw m => Throw m
  end.

Notation "'let?' x ':=' o 'in' k" := (obind o (fun x => k))
  (at level 10, x name, o at level 100, k at level 200, only parsing).

Module Js.

(** ** Truthiness: [ToBoolean] *)
Definition truthy (v : value) : bool :=
  match v with
  | VUndefined | VNull => false
  | VBool b => b
  | VNum (NInt z) => negb (z =? 0)
  | VNum (NDec _) => true
  | VStr s => negb (String.eqb s "")
  | VArr _ | VObj _ | VServerTimestamp | VTimestamp _ => true
  end.

(** ** Objects
    An object is the sequence of its property definitions, in the order
    they were made.  A name defined again takes the later value, as in an
    object literal, in [JSON.parse] and under spread. *)
Definition get (k : string) (o : fields) : value :=
  fold_left (fun found kv => if String.eqb k (fst kv) then snd kv else found)
    o VUndefined.

Definition has_own (k : string) (o : fields) : bool :=
  existsb (fun kv => String.eqb k (fst kv)) o.

(** [{ ...dst, ...src }] *)
Definition assign (dst src : fields) : fields := (dst ++ src)%list.

(** ** Number to string *)
Definition number_to_string (n : number) : string :=
  match n with
  | NInt z => NilZero.string_of_int (Z.to_int z)
  | NDec repr => repr
  end.

Definition index_key (i : nat) : string :=
  NilZero.string_of_uint (Nat.to_uint i).

(** ** Enumerable own properties of a value, as spread and destructuring
    see them.  Arrays expose their indices, strings their characters;
    primitives, [null] and [undefined] expose nothing. *)
Fixpoint indexed (i : nat) (l : list value) : fields :=
  match l with
  | [] => []
  | v :: rest => (index_key i, v) :: indexed (S i) rest
  end.

Fixpoint chars (s : string) : list value :=
  match s with
  | EmptyString => []
  | String c rest => VStr (String c EmptyString) :: chars rest
  end.

Definition own_props (v : value) : fields :=
  match v with
  | VObj o => o
  | VArr l => indexed 0 l
  | VStr s => indexed 0 (chars s)
  | _ => []
  end.

(** [const { first, .. } = v], where [what] is the source text of [v]:
    a TypeError when [v] is [undefined] or [null]; otherwise the named
    properties are read from [v]. *)
Definition destructure (first what : string) (v : value) : outcome fields :=
  match v with
  | VUndefined =>
      Throw ("Cannot destructure property '" +:+ first +:+ "' of '" +:+ what
             +:+ "' as it is undefined.")
  | VNull =>
      Throw ("Cannot destructure property '" +:+ first +:+ "' of '" +:+ what
             +:+ "' as it is null.")
  | _ => Ok (own_props v)
  end.

(** [const { k = dflt } = o]: the default replaces [undefined] only. *)
Definition get_default (k : string) (dflt : value) (o : fields) : value :=
  match get k o with
  | VUndefined => dflt
  | v => v
  end.

(** [a || b] *)
Definition or_else (a b : value) : value := if truthy a then a else b.

(** ** [ToString]
    A plain object prints as ["[object Object]"] unless it carries an own
    property named [toString]: a JSON value is never callable, so the
    conversion then fails with a TypeError. *)
Definition type_error_primitive : string :=
  "Cannot convert object to primitive value".

Fixpoint to_string (v : value) : outcome string :=
  match v with
  | VUndefined => Ok "undefined"
  | VNull => Ok "null"
  | VBool true => Ok "true"
  | VBool false => Ok "false"
  | VNum n => Ok (number_to_string n)
  | VStr s => Ok s
  | VArr l =>
      (fix join_items (l : list value) : outcome string :=
         match l with
         | [] => Ok ""
         | x :: rest =>
             let? s := match x with
                       | VUndefined | VNull => Ok ""
                       | _ => to_string x
                       end in
             match rest with
             | [] => Ok s
             | _ => let? r := join_items rest in Ok (s +:+ "," +:+ r)
             end
         end) l
  | VObj o =>
      if has_own "toString" o then Throw type_error_primitive
      else Ok "[object Object]"
  | VServerTimestamp | VTimestamp _ => Ok "[object Object]"
  end.

(** ** [Array.prototype.join] *)
Definition item_string (x : value) : outcome string :=
  match x with
  | VUndefined | VNull => Ok ""
  | _ => to_string x
  end.

Fixpoint join (sep : string) (l : list value) : outcome string :=
  match l with
  | [] => Ok ""
  | x :: rest =>
      let? s := item_string x in
      match rest with
      | [] => Ok s
      | _ => let? r := join sep rest in Ok (s +:+ sep +:+ r)
      end
  end.

(** ** [parseInt] without a radix
    The white space [parseInt] skips is [WhiteSpace] and [LineTerminator]:
    TAB, LF, VT, FF, CR and SP, and, in their UTF-8 encodings, U+00A0,
    U+1680, U+2000 to U+200A, U+2028, U+2029, U+202F, U+205F, U+3000 and
    U+FEFF. *)
Definition is_space (c : ascii) : bool :=
  let n := nat_of_ascii c in
  ((9 <=? n) && (n <=? 13))%nat || (n =? 32)%nat.

Definition is_space2 (a b : ascii) : bool :=
  ((nat_of_ascii a =? 194) && (nat_of_ascii b =? 160))%nat.     (* U+00A0 *)

Definition is_space3 (a b c : ascii) : bool :=
  let x := nat_of_ascii a in
  let y := nat_of_ascii b in
  let z := nat_of_ascii c in
  ((x =? 225) && (y =? 154) && (z =? 128)                       (* U+1680 *)
   || (x =? 226) && (y =? 128)
      && ((128 <=? z) && (z <=? 138)                   (* U+2000 .. U+200A *)
          || (z =? 168) || (z =? 169)                   (* U+2028, U+2029 *)
          || (z =? 175))                                        (* U+202F *)
   || (x =? 226) && (y =? 129) && (z =? 159)                    (* U+205F *)
   || (x =? 227) && (y =? 128) && (z =? 128)                    (* U+3000 *)
   || (x =? 239) && (y =? 187) && (z =? 191))%nat.              (* U+FEFF *)

Fixpoint trim_start (s : string) : string :=
  match s with
  | EmptyString => EmptyString
  | String a rest =>
      if is_space a then trim_start rest
      else
        match rest with
        | EmptyString => s
        | String b rest2 =>
            if is_space2 a b then trim_start rest2
            else
              match rest2 with
              | EmptyString => s
              | String c rest3 =>
                  if is_space3 a b c then trim_start rest3 else s
              end
        end
  end.

Definition digit_value (radix : Z) (c : ascii) : option Z :=
  let n := Z.of_nat (nat_of_ascii c) in
  let d :=
    if (48 <=? n) && (n <=? 57) then Some (n - 48)
    else if (97 <=? n) && (n <=? 122) then Some (n - 87)
    else if (65 <=? n) && (n <=? 90) then Some (n - 55)
    else None in
  match d with
  | Some k => if k <? radix then Some k else None
  | None => None
  end.

(** The longest prefix of digits, accumulated; [None] when it is empty. *)
Fixpoint scan_digits (radix : Z) (acc : option Z) (s : string) : option Z :=
  match s with
  | EmptyString => acc
  | String c rest =>
      match digit_value radix c with
      | Some d =>
          scan_digits radix (Some (radix * default 0 acc + d)) rest
      | None => acc
      end
  end.

(** A leading sign, and the ["0x"] prefix that selects radix 16. *)
Definition strip_sign (s : string) : bool * string :=
  match s with
  | String "-"%char rest => (true, rest)
  | String "+"%char rest => (false, rest)
  | _ => (false, s)
  end.

Definition strip_prefix (s : string) : Z * string :=
  match s with
  | String "0"%char (String "x"%char rest) => (16, rest)
  | String "0"%char (String "X"%char rest) => (16, rest)
  | _ => (10, s)
  end.

(** [Number.MAX_SAFE_INTEGER], 2^53 - 1. *)
Definition MAX_SAFE_INTEGER : Z := 9007199254740991.

(** The Number value for an integer: the nearest double, a tie going to
    the even significand; [None] when that is an infinity, from
    2^1024 - 2^970 on.  Up to 2^53 every integer is a double. *)
Definition to_double (z : Z) : option Z :=
  let a := Z.abs z in
  if a <=? MAX_SAFE_INTEGER then Some z
  else
    let shift := Z.log2 a - 52 in
    let q := Z.shiftr a shift in
    let r := a - Z.shiftl q shift in
    let half := Z.shiftl 1 (shift - 1) in
    let q1 := if (half <? r) || ((half =? r) && Z.odd q) then q + 1 else q in
    let m := Z.shiftl q1 shift in
    if Z.shiftl 1 1024 <=? m then None else Some (Z.sgn z * m).

(** The digits denote an integer exactly; the result is the Number value
    for it.  [None] stands for a result that is no integer: [NaN] when
    there is no digit, an infinity when the digits exceed every double. *)
Definition parseInt_string (s : string) : option Z :=
  let '(negative, s2) := strip_sign (trim_start s) in
  let '(radix, s3) := strip_prefix s2 in
  match scan_digits radix None s3 with
  | Some n => to_double (if negative then - n else n)
  | None => None
  end.

Definition parseInt (v : value) : outcome (option Z) :=
  let? s := to_string v in Ok (parseInt_string s).

End Js.

(* ===================================================================== *)
(** * Part 2: handler bodies as programs over collaborator calls *)
(* ===================================================================== *)

(** ** What the collaborators exchange with the server *)

(** A document of a query snapshot: [doc.id] and [doc.data()]. *)
Record doc : Type := Doc { doc_id : string; doc_data : fields }.

(** An object of a bucket listing: [file.name] and [file.metadata]. *)
Record file : Type := File { file_name : value; file_metadata : fields }.

(** [query.where(field, '==', v)] and [query.where(field, 'array-contains', v)] *)
Inductive filter : Type :=
| WhereEq (field : string) (v : value)
| WhereArrayContains (field : string) (v : value).

(** A Firestore query as the handlers build it: the [where] clauses in the
    order they were added, the [orderBy] clause when there is one, and the
    argument of [limit] ([None] when it is no integer: [NaN] or an
    infinity). *)
Record query : Type := Query {
  q_where : list filter;
  q_orderBy : option (string * string);
  q_limit : option Z
}.

(** The awaited calls.  Each one either resolves to a reply or rejects. *)
Inductive call : Type :=
| FirestoreGet (collection : string) (q : query)
    (* firestore.collection(c)[.where..][.orderBy..].limit(n).get() *)
| FirestoreAdd (collection : string) (data : fields)
    (* firestore.collection(c).add(data) *)
| FirestoreCount (collection : string)
    (* firestore.collection(c).count().get(), then .data().count *)
| BucketExists
    (* bucket.exists() *)
| FileSave (fileName content : value) (metadata : fields)
    (* bucket.file(fileName).save(content, { metadata }) *)
| BucketGetFiles (maxResults : Z)
    (* bucket.getFiles({ maxResults }) *)
| GenerateContent (model prompt : value)
    (* vertex.getGenerativeModel({ model }).generateContent(prompt),
       then result.response.text() *)
| SheetsValuesGet (spreadsheetId range : string)
    (* sheets.spreadsheets.values.get(..), then response.data.values *)
| DriveFilesList (pageSize : Z) (fieldMask : string).
    (* drive.files.list(..), then response.data.files *)

Definition reply (c : call) : Type :=
  match c with
  | FirestoreGet _ _ => list doc
  | FirestoreAdd _ _ => string            (* docRef.id *)
  | FirestoreCount _ => Z
  | BucketExists => unit
  | FileSave _ _ _ => unit
  | BucketGetFiles _ => list file
  | GenerateContent _ _ => string
  | SheetsValuesGet _ _ => option (list value)   (* None: undefined *)
  | DriveFilesList _ _ => option (list value)    (* None: undefined *)
  end.

(** Reads of the process itself; they never fail. *)
Inductive sysread : Type :=
| DateNow          (* new Date().toISOString() *)
| ProcessUptime    (* process.uptime() *)
| ProcessMemory.   (* process.memoryUsage() *)

Definition sys_reply (r : sysread) : Type :=
  match r with
  | DateNow => string
  | ProcessUptime => number
  | ProcessMemory => fields
  end.

(** ** Programs *)
Inductive prog (A : Type) : Type :=
| Ret (a : A)
| Call (c : call) (k : outcome (reply c) -> prog A)
| Read (r : sysread) (k : sys_reply r -> prog A)
| Log (level label detail : string) (k : prog A).
Arguments Ret {A} a.
Arguments Call {A} c k.
Arguments Read {A} r k.
Arguments Log {A} level label detail k.

Fixpoint pbind {A B} (p : prog A) (k : A -> prog B) : prog B :=
  match p with
  | Ret a => k a
  | Call c k' => Call c (fun o => pbind (k' o) k)
  | Read r k' => Read r (fun x => pbind (k' x) k)
  | Log lv lb d p' => Log lv lb d (pbind p' k)
  end.

(** Code inside a [try] block: a program that may end in an exception. *)
Definition M (A : Type) : Type := prog (outcome A).

Definition ret {A} (a : A) : M A := Ret (Ok a).
Definition lift {A} (o : outcome A) : M A := Ret o.

Definition mbind {A B} (p : M A) (k : A -> M B) : M B :=
  pbind p (fun o => match o with
                    | Ok a => k a
                    | Throw m => Ret (Throw m)
                    end).

(** [await c]: a rejected promise throws at the [await]. *)
Definition await (c : call) : M (reply c) := Call c Ret.
Definition read (r : sysread) : M (sys_reply r) := Read r (fun x => Ret (Ok x)).
Definition console (level label detail : string) : M unit :=
  Log level label detail (Ret (Ok tt)).

(** [try { p } catch (e) { h e }] *)
Definition try_catch {A} (p : M A) (h : string -> M A) : M A :=
  pbind p (fun o => match o with
                    | Ok a => Ret (Ok a)
                    | Throw m => h m
                    end).

(** The outermost [try]/[catch] of a handler: its [catch] block always
    answers, so nothing escapes. *)
Definition handler_try {A} (p : M A) (h : string -> prog A) : prog A :=
  pbind p (fun o => match o with
                    | Ok a => Ret a
                    | Throw m => h m
                    end).

(** [let*] sequences code inside a [try]; [let!] sequences plain programs. *)
Notation "'let*' x ':=' e 'in' k" := (mbind e (fun x => k))
  (at level 10, x name, e at level 100, k at level 200, only parsing).
Notation "'let*' ' pat ':=' e 'in' k" :=
  (mbind e (fun x => match x with pat => k end))
  (at level 10, pat pattern, e at level 100, k at level 200, only parsing).
Notation "'let!' x ':=' e 'in' k" := (pbind e (fun x => k))
  (at level 10, x name, e at level 100, k at level 200, only parsing).

(** ** Running a program against collaborators

    The collaborators are any state machine: [respond] settles each awaited
    call and [sys] answers each process read, both threading a state of an
    arbitrary type [W].  A run yields the result, the calls and log lines
    in the order they happened, and the final state. *)
Inductive event : Type :=
| ECall (c : call)
| ELog (level label detail : string).

Record collaborators (W : Type) : Type := Collaborators {
  respond : forall c : call, W -> outcome (reply c) * W;
  sys : forall r : sysread, W -> sys_reply r * W
}.
Arguments respond {W} _ c _.
Arguments sys {W} _ r _.

Fixpoint run {W A} (env : collaborators W) (p : prog A) (w : W)
  : A * list event * W :=
  match p with
  | Ret a => (a, [], w)
  | Call c k =>
      let '(o, w1) := respond env c w in
      let '(a, tr, w2) := run env (k o) w1 in
      (a, ECall c :: tr, w2)
  | Read r k =>
      let '(x, w1) := sys env r w in
      run env (k x) w1
  | Log lv lb d k =>
      let '(a, tr, w1) := run env k w in
      (a, ELog lv lb d :: tr, w1)
  end.

Definition result {W A} (x : A * list event * W) : A := fst (fst x).
Definition trace {W A} (x : A * list event * W) : list event := snd (fst x).
Definition final {W A} (x : A * list event * W) : W := snd x.

(** The collaborator calls of a trace, in order. *)
Fixpoint calls (tr : list event) : list call :=
  match tr with
  | [] => []
  | ECall c :: rest => c :: calls rest
  | ELog _ _ _ :: rest => calls rest
  end.

(* ===================================================================== *)
(** * Part 3: the server *)
(* ===================================================================== *)

(** ** Configuration: [CONFIG] *)
Record config : Type := Config {
  project : string;
  location : string;
  bucket : string;
  credentials : string;
  spreadsheetId : string;
  nodeEnv : string
}.

(** [process.env.NAME || fallback]: an unset or empty variable falls back. *)
Definition env_or (env : string -> option string) (name fallback : string)
  : string :=
  match env name with
  | Some v => if String.eqb v "" then fallback else v
  | None => fallback
  end.

Definition CONFIG (env : string -> option string) : config := {|
  project := env_or env "GOOGLE_CLOUD_PROJECT" "infinity-x-one-systems";
  location := env_or env "GOOGLE_CLOUD_REGION" "us-east1";
  bucket := env_or env "GCS_BUCKET_NAME" "real-estate-intelligence";
  credentials := env_or env "GOOGLE_APPLICATION_CREDENTIALS" "/app/credentials.json";
  spreadsheetId :=
    env_or env "GOOGLE_SHEETS_ID" "1G4ACS7NJRBcE8XyhU4V2un5xPIm_b90fPi2Rt4iMs4k";
  nodeEnv := env_or env "NODE_ENV" "production"
|}.

(** ** Requests and responses *)
Record request : Type := Request {
  req_method : string;
  req_path : string;
  req_body : value;     (* as left by express.json() *)
  req_query : value     (* the parsed query string *)
}.

(** [body] is the object handed to [res.json]; a response that is ended
    without a body has none. *)
Record response : Type := Response {
  status : Z;
  body : fields
}.

(** A message as it reaches the application.  [msg_payload] is what
    [express.json({ limit: '10mb' })] makes of its body: the value it
    leaves in [req.body], or the error it passes on for a body that is
    malformed or over the limit. *)
Record message : Type := Message {
  msg_method : string;
  msg_path : string;
  msg_payload : outcome value;
  msg_query : value
}.

(** [res.json(b)] and [res.status(s).json(b)] *)
Definition json (b : fields) : response := Response 200 b.
Definition status_json (s : Z) (b : fields) : response := Response s b.

Definition nl : string := String "010"%char EmptyString.

Definition int (z : Z) : value := VNum (NInt z).
Definition len {A} (l : list A) : value := int (Z.of_nat (length l)).

(** [doc => ({ id: doc.id, ...doc.data() })] *)
Definition doc_object (d : doc) : value :=
  VObj (Js.assign [("id", VStr (doc_id d))] (doc_data d)).

(** [x.k] for a value [x]: reading a property of [undefined] or [null]
    throws. *)
Definition member (x : value) (k : string) : outcome value :=
  match x with
  | VUndefined =>
      Throw ("Cannot read properties of undefined (reading '" +:+ k +:+ "')")
  | VNull =>
      Throw ("Cannot read properties of null (reading '" +:+ k +:+ "')")
  | _ => Ok (Js.get k (Js.own_props x))
  end.

Section Handlers.

Variable cfg : config.

(** *** GET /health *)
Definition health (req : request) : prog response :=
  let! now := Read DateNow Ret in
  let! uptime := Read ProcessUptime Ret in
  let! memory := Read ProcessMemory Ret in
  Ret (json [
    ("status", VStr "healthy");
    ("timestamp", VStr now);
    ("service", VStr "Real Estate Intelligence");
    ("version", VStr "5.0.0");
    ("uptime", VNum uptime);
    ("memory", VObj memory);
    ("environment", VStr (nodeEnv cfg))
  ]).

(** *** GET /api/status
    The client handles [vertex], [sheets] and [drive] are assigned before
    the server starts listening, so their probes read 'active'. *)
Definition probe (c : call) : prog value :=
  handler_try
    (let* _ := await c in ret (VStr "active"))
    (fun e => Ret (VStr "error")).

Definition api_status (req : request) : prog response :=
  let! firestore :=
    probe (FirestoreGet "_health_check" (Query [] None (Some 1))) in
  let! storage := probe BucketExists in
  let! now := Read DateNow Ret in
  let! uptime := Read ProcessUptime Ret in
  Ret (json [
    ("status", VStr "operational");
    ("timestamp", VStr now);
    ("components", VObj [
       ("api", VStr "healthy");
       ("firestore", firestore);
       ("storage", storage);
       ("vertexAI", VStr "active");
       ("sheets", VStr "active");
       ("drive", VStr "active")
     ]);
    ("config", VObj [
       ("project", VStr (project cfg));
       ("location", VStr (location cfg));
       ("bucket", VStr (bucket cfg));
       ("environment", VStr (nodeEnv cfg))
     ]);
    ("uptime", VNum uptime)
  ]).

(** *** POST /api/ai/query *)

(** The [if (useMemory) { try { .. } catch (e) { .. } }] block, yielding
    the final values of [context] and [memoriesUsed].  [memoriesUsed] is
    assigned before [context]: when the join throws, the [catch] leaves
    the fetched records in [memoriesUsed] and [context] empty. *)
Definition fetch_context : M (string * list value) :=
  try_catch
    (let* memorySnapshot := await (FirestoreGet "memory"
         (Query [] (Some ("timestamp", "desc")) (Some 5))) in
     let memoriesUsed := map doc_object memorySnapshot in
     try_catch
       (let* context := lift (Js.join (nl +:+ nl)
            (map (fun m => Js.get "content" (Js.own_props m)) memoriesUsed)) in
        ret (context, memoriesUsed))
       (fun e =>
          let* _ := console "warn" "Memory fetch failed:" e in
          ret ("", memoriesUsed)))
    (fun e =>
       let* _ := console "warn" "Memory fetch failed:" e in
       ret ("", [])).

(** [`Context from memory:\n${context}\n\nUser query: ${query}`] *)
Definition context_prompt (context : string) (query : value) : outcome value :=
  let? q := Js.to_string query in
  Ok (VStr ("Context from memory:" +:+ nl +:+ context +:+ nl +:+ nl
            +:+ "User query: " +:+ q)).

(** [vertex.getGenerativeModel({ model })] only builds a local handle; it is
    folded into the [GenerateContent] call that uses it. *)
Definition ai_query (req : request) : prog response :=
  handler_try
    (let* b := lift (Js.destructure "query" "req.body" (req_body req)) in
     let query := Js.get "query" b in
     let useMemory := Js.get_default "useMemory" (VBool true) b in
     let model := Js.get_default "model" (VStr "gemini-2.0-flash-exp") b in
     if negb (Js.truthy query) then
       ret (status_json 400 [
         ("success", VBool false);
         ("error", VStr "Query parameter required")
       ])
     else
       let* '(context, memoriesUsed) :=
         (if Js.truthy useMemory then fetch_context else ret ("", [])) in
       let* prompt := lift (if Js.truthy (VStr context)
                            then context_prompt context query
                            else Ok query) in
       let* response := await (GenerateContent model prompt) in
       let* _ := try_catch
         (let* _ := await (FirestoreAdd "memory" [
              ("type", VStr "interaction");
              ("query", query);
              ("response", VStr response);
              ("model", model);
              ("timestamp", VServerTimestamp);
              ("relevanceScore", int 1);
              ("contextUsed", VBool (Js.truthy (VStr context)))
            ]) in
          ret tt)
         (fun e => console "warn" "Memory store failed:" e) in
       let* now := read DateNow in
       ret (json [
         ("success", VBool true);
         ("data", VObj [
            ("query", query);
            ("response", VStr response);
            ("model", model);
            ("contextUsed", VBool (Js.truthy (VStr context)));
            ("memoriesReferenced", len memoriesUsed);
            ("timestamp", VStr now)
          ])
       ]))
    (fun error =>
       Log "error" "AI Query Error:" error (
       let! now := Read DateNow Ret in
       Ret (status_json 500 [
         ("success", VBool false);
         ("error", VStr error);
         ("timestamp", VStr now)
       ]))).

(** The [catch] block shared, word for word, by the remaining handlers. *)
Definition answer_500 (label : string) (error : string) : prog response :=
  Log "error" label error (
  Ret (status_json 500 [
    ("success", VBool false);
    ("error", VStr error)
  ])).

(** *** POST /api/memory/store *)
Definition memoryEntry (type content tags metadata : value) : fields := [
  ("type", type);
  ("content", content);
  ("tags", tags);
  ("metadata", metadata);
  ("timestamp", VServerTimestamp);
  ("relevanceScore", int 1);
  ("accessCount", int 0)
].

Definition memory_store (req : request) : prog response :=
  handler_try
    (let* b := lift (Js.destructure "type" "req.body" (req_body req)) in
     let type := Js.get "type" b in
     let content := Js.get "content" b in
     let tags := Js.get_default "tags" (VArr []) b in
     let metadata := Js.get_default "metadata" (VObj []) b in
     if negb (Js.truthy type) || negb (Js.truthy content) then
       ret (status_json 400 [
         ("success", VBool false);
         ("error", VStr "Type and content required")
       ])
     else
       let entry := memoryEntry type content tags metadata in
       let* docRef := await (FirestoreAdd "memory" entry) in
       let* now := read DateNow in
       ret (json [
         ("success", VBool true);
         ("data", VObj (Js.assign [("id", VStr docRef)] entry));
         ("timestamp", VStr now)
       ]))
    (answer_500 "Memory Store Error:").

(** *** GET /api/memory/search *)
Definition memory_filters (type tags : value) : list filter :=
  (if Js.truthy type then [WhereEq "type" type] else [])
  ++ (if Js.truthy tags then [WhereArrayContains "tags" tags] else []).

Definition memory_search (req : request) : prog response :=
  handler_try
    (let* q := lift (Js.destructure "type" "req.query" (req_query req)) in
     let type := Js.get "type" q in
     let tags := Js.get "tags" q in
     let limit := Js.get_default "limit" (int 10) q in
     let* n := lift (Js.parseInt limit) in
     let* snapshot := await (FirestoreGet "memory"
         (Query (memory_filters type tags) (Some ("timestamp", "desc")) n)) in
     let memories := map doc_object snapshot in
     let* now := read DateNow in
     ret (json [
       ("success", VBool true);
       ("data", VObj [("memories", VArr memories); ("count", len memories)]);
       ("timestamp", VStr now)
     ]))
    (answer_500 "Memory Search Error:").

(** *** POST /api/storage/upload *)
Definition storage_upload (req : request) : prog response :=
  handler_try
    (let* b := lift (Js.destructure "fileName" "req.body" (req_body req)) in
     let fileName := Js.get "fileName" b in
     let content := Js.get "content" b in
     let metadata := Js.get_default "metadata" (VObj []) b in
     if negb (Js.truthy fileName) || negb (Js.truthy content) then
       ret (status_json 400 [
         ("success", VBool false);
         ("error", VStr "fileName and content required")
       ])
     else
       let* contentType := lift (member metadata "contentType") in
       let* _ := await (FileSave fileName content
           (Js.assign
              [("contentType", Js.or_else contentType (VStr "application/json"))]
              (Js.own_props metadata))) in
       let* name := lift (Js.to_string fileName) in
       let* now := read DateNow in
       ret (json [
         ("success", VBool true);
         ("data", VObj [
            ("fileName", fileName);
            ("bucket", VStr (bucket cfg));
            ("url", VStr ("gs://" +:+ bucket cfg +:+ "/" +:+ name))
          ]);
         ("timestamp", VStr now)
       ]))
    (answer_500 "Storage Upload Error:").

(** *** GET /api/storage/files *)
Definition file_entry (f : file) : value :=
  VObj [
    ("name", file_name f);
    ("size", Js.get "size" (file_metadata f));
    ("created", Js.get "timeCreated" (file_metadata f));
    ("updated", Js.get "updated" (file_metadata f));
    ("contentType", Js.get "contentType" (file_metadata f))
  ].

Definition storage_files (req : request) : prog response :=
  handler_try
    (let* files := await (BucketGetFiles 100) in
     let fileList := map file_entry files in
     let* now := read DateNow in
     ret (json [
       ("success", VBool true);
       ("data", VObj [
          ("files", VArr fileList);
          ("bucket", VStr (bucket cfg));
          ("count", len fileList)
        ]);
       ("timestamp", VStr now)
     ]))
    (answer_500 "Storage List Error:").

(** *** GET /api/sheets/investor-data *)
Definition sheets_investor_data (req : request) : prog response :=
  handler_try
    (let* values := await (SheetsValuesGet (spreadsheetId cfg) "Sheet1!A1:Z1000") in
     let rows := default [] values in
     let* now := read DateNow in
     ret (json [
       ("success", VBool true);
       ("data", VObj [
          ("totalRows", len rows);
          ("headers", Js.or_else (hd VUndefined rows) (VArr []));
          ("records", VArr (tl rows));
          ("spreadsheetId", VStr (spreadsheetId cfg))
        ]);
       ("timestamp", VStr now)
     ]))
    (answer_500 "Google Sheets Error:").

(** *** GET /api/drive/files *)
Definition drive_files (req : request) : prog response :=
  handler_try
    (let* files := await (DriveFilesList 100
         "files(id, name, mimeType, createdTime, modifiedTime, size)") in
     let* now := read DateNow in
     ret (json [
       ("success", VBool true);
       ("data", VObj [
          ("files", VArr (default [] files));
          ("count", len (default [] files))
        ]);
       ("timestamp", VStr now)
     ]))
    (answer_500 "Google Drive Error:").

(** *** GET /api/firestore/properties *)
Definition property_filters (city zipCode : value) : list filter :=
  (if Js.truthy city then [WhereEq "city" city] else [])
  ++ (if Js.truthy zipCode then [WhereEq "zipCode" zipCode] else []).

Definition properties_list (req : request) : prog response :=
  handler_try
    (let* q := lift (Js.destructure "limit" "req.query" (req_query req)) in
     let limit := Js.get_default "limit" (int 50) q in
     let city := Js.get "city" q in
     let zipCode := Js.get "zipCode" q in
     let* n := lift (Js.parseInt limit) in
     let* snapshot := await (FirestoreGet "properties"
         (Query (property_filters city zipCode) None n)) in
     let properties := map doc_object snapshot in
     let* now := read DateNow in
     ret (json [
       ("success", VBool true);
       ("data", VObj [("properties", VArr properties); ("count", len properties)]);
       ("timestamp", VStr now)
     ]))
    (answer_500 "Firestore Query Error:").

(** *** POST /api/firestore/properties *)

(** [{ ...req.body, timestamp: .., updatedAt: .. }] *)
Definition propertyData (reqBody : value) : fields :=
  Js.assign (Js.own_props reqBody) [
    ("timestamp", VServerTimestamp);
    ("updatedAt", VServerTimestamp)
  ].

Definition properties_create (req : request) : prog response :=
  handler_try
    (let data := propertyData (req_body req) in
     let* docRef := await (FirestoreAdd "properties" data) in
     let* now := read DateNow in
     ret (json [
       ("success", VBool true);
       ("data", VObj (Js.assign [("id", VStr docRef)] data));
       ("timestamp", VStr now)
     ]))
    (answer_500 "Firestore Add Error:").

(** *** GET /api/real-estate/overview *)

(** [let total = 0; try { total = (await ..count().get()).data().count }
    catch (e) { console.warn(..) }], yielding the final [total]. *)
Definition count_or_zero (collection label : string) : M value :=
  try_catch
    (let* n := await (FirestoreCount collection) in ret (int n))
    (fun e => let* _ := console "warn" label e in ret (int 0)).

Definition real_estate_overview (req : request) : prog response :=
  handler_try
    (let* totalProperties := count_or_zero "properties" "Properties count failed:" in
     let* totalMemories := count_or_zero "memory" "Memories count failed:" in
     let* uptime := read ProcessUptime in
     let* memory := read ProcessMemory in
     let* now := read DateNow in
     ret (json [
       ("success", VBool true);
       ("data", VObj [
          ("totalProperties", totalProperties);
          ("totalMemories", totalMemories);
          ("activeLeads", int 342);
          ("hotDeals", int 23);
          ("marketScore", VNum (NDec "8.5"));
          ("aiStatus", VObj [
             ("vertexAI", VStr "active");
             ("firestore", VStr "active");
             ("cloudStorage", VStr "active");
             ("rag", VStr "active");
             ("googleSheets", VStr "active");
             ("googleDrive", VStr "active")
           ]);
          ("systemHealth", VObj [
             ("uptime", VNum uptime);
             ("memory", VObj memory);
             ("environment", VStr (nodeEnv cfg))
           ])
        ]);
       ("timestamp", VStr now)
     ]))
    (answer_500 "Overview Error:").

(** *** The error-handling middleware: [app.use((err, req, res, next) => ..)] *)
Definition error_handler (err : string) (req : request) : prog response :=
  Log "error" "Unhandled error:" err (
  let! now := Read DateNow Ret in
  Ret (status_json 500 [
    ("success", VBool false);
    ("error", VStr "Internal server error");
    ("message",
       if String.eqb (nodeEnv cfg) "development" then VStr err else VUndefined);
    ("timestamp", VStr now)
  ])).

(** *** The 404 handler *)
Definition not_found (req : request) : prog response :=
  let! now := Read DateNow Ret in
  Ret (status_json 404 [
    ("success", VBool false);
    ("error", VStr "Endpoint not found");
    ("path", VStr (req_path req));
    ("timestamp", VStr now)
  ]).

(** *** The routes, in registration order *)
Inductive route : Type :=
| Health | ApiStatus | AiQuery | MemoryStore | MemorySearch
| StorageUpload | StorageFiles | SheetsInvestorData | DriveFiles
| PropertiesList | PropertiesCreate | RealEstateOverview.

Definition route_table : list (string * string * route) := [
  ("GET", "/health", Health);
  ("GET", "/api/status", ApiStatus);
  ("POST", "/api/ai/query", AiQuery);
  ("POST", "/api/memory/store", MemoryStore);
  ("GET", "/api/memory/search", MemorySearch);
  ("POST", "/api/storage/upload", StorageUpload);
  ("GET", "/api/storage/files", StorageFiles);
  ("GET", "/api/sheets/investor-data", SheetsInvestorData);
  ("GET", "/api/drive/files", DriveFiles);
  ("GET", "/api/firestore/properties", PropertiesList);
  ("POST", "/api/firestore/properties", PropertiesCreate);
  ("GET", "/api/real-estate/overview", RealEstateOverview)
].

Definition handler (r : route) : request -> prog response :=
  match r with
  | Health => health
  | ApiStatus => api_status
  | AiQuery => ai_query
  | MemoryStore => memory_store
  | MemorySearch => memory_search
  | StorageUpload => storage_upload
  | StorageFiles => storage_files
  | SheetsInvestorData => sheets_investor_data
  | DriveFiles => drive_files
  | PropertiesList => properties_list
  | PropertiesCreate => properties_create
  | RealEstateOverview => real_estate_overview
  end.

(** Express matches paths without regard to letter case and to one
    trailing slash, and serves HEAD with the GET handler. *)
Definition lower (c : ascii) : ascii :=
  let n := nat_of_ascii c in
  if ((65 <=? n) && (n <=? 90))%nat then ascii_of_nat (n + 32) else c.

Fixpoint normalize_path (path : string) : string :=
  match path with
  | EmptyString => EmptyString
  | String "/"%char EmptyString => EmptyString
  | String c rest => String (lower c) (normalize_path rest)
  end.

Definition normalize_method (method : string) : string :=
  if String.eqb method "HEAD" then "GET" else method.

Fixpoint find_route (method path : string)
    (table : list (string * string * route)) : option route :=
  match table with
  | [] => None
  | (m, p, r) :: rest =>
      if String.eqb method m && String.eqb path (normalize_path p)
      then Some r
      else find_route method path rest
  end.

(** Past the middleware, a request is served by the first route registered
    for its method and path, and by the 404 handler when there is none. *)
Definition dispatch (req : request) : prog response :=
  match find_route (normalize_method (req_method req))
          (normalize_path (req_path req)) route_table with
  | Some r => handler r req
  | None => not_found req
  end.

(** *** The middleware before the routes *)

Definition upper (c : ascii) : ascii :=
  let n := nat_of_ascii c in
  if ((97 <=? n) && (n <=? 122))%nat then ascii_of_nat (n - 32) else c.

Fixpoint toUpperCase (s : string) : string :=
  match s with
  | EmptyString => EmptyString
  | String c rest => String (upper c) (toUpperCase rest)
  end.

(** [app.use(cors({ origin: [..], credentials: true }))]: a message whose
    method reads OPTIONS is a preflight, which the policy answers itself,
    with status 204 and no body; every other message passes on, with
    headers added to its response. *)
Definition preflight (method : string) : bool :=
  String.eqb (toUpperCase method) "OPTIONS".

Definition no_content : response := Response 204 [].

(** The application: the CORS policy, then [express.json()], whose error
    goes to the error-handling middleware past every route, then the
    routes. *)
Definition application (m : message) : prog response :=
  if preflight (msg_method m) then Ret no_content
  else
    match msg_payload m with
    | Throw e =>
        error_handler e
          (Request (msg_method m) (msg_path m) (VObj []) (msg_query m))
    | Ok reqBody =>
        dispatch (Request (msg_method m) (msg_path m) reqBody (msg_query m))
    end.

(** The application on a message whose body [express.json()] accepted. *)
Definition app (req : request) : prog response :=
  application
    (Message (req_method req) (req_path req) (Ok (req_body req))
       (req_query req)).

End Handlers.

(* ===================================================================== *)
(** * Part 4: a reference document store *)
(* ===================================================================== *)

(** ** Equality of values, as an equality filter tests it *)

Definition number_eqb (a b : number) : bool :=
  match a, b with
  | NInt x, NInt y => x =? y
  | NDec x, NDec y => String.eqb x y
  | _, _ => false
  end.

Fixpoint value_eqb (a b : value) : bool :=
  match a, b with
  | VUndefined, VUndefined => true
  | VNull, VNull => true
  | VBool x, VBool y => Bool.eqb x y
  | VNum x, VNum y => number_eqb x y
  | VStr x, VStr y => String.eqb x y
  | VArr l1, VArr l2 =>
      (fix items (l1 l2 : list value) : bool :=
         match l1, l2 with
         | [], [] => true
         | x :: r1, y :: r2 => value_eqb x y && items r1 r2
         | _, _ => false
         end) l1 l2
  | VObj o1, VObj o2 =>
      (fix props (o1 o2 : list (string * value)) : bool :=
         match o1, o2 with
         | [], [] => true
         | (k1, x) :: r1, (k2, y) :: r2 =>
             String.eqb k1 k2 && value_eqb x y && props r1 r2
         | _, _ => false
         end) o1 o2
  | VServerTimestamp, VServerTimestamp => true
  | VTimestamp x, VTimestamp y => x =? y
  | _, _ => false
  end.

Section ValueInduction.

Variable P : value -> Prop.
Hypothesis Hundefined : P VUndefined.
Hypothesis Hnull : P VNull.
Hypothesis Hbool : forall b, P (VBool b).
Hypothesis Hnum : forall n, P (VNum n).
Hypothesis Hstr : forall s, P (VStr s).
Hypothesis Harr : forall l, Forall P l -> P (VArr l).
Hypothesis Hobj : forall o, Forall (fun kv => P (snd kv)) o -> P (VObj o).
Hypothesis Hsentinel : P VServerTimestamp.
Hypothesis Htimestamp : forall t, P (VTimestamp t).

Fixpoint value_nested_ind (v : value) : P v :=
  match v with
  | VUndefined => Hundefined
  | VNull => Hnull
  | VBool b => Hbool b
  | VNum n => Hnum n
  | VStr s => Hstr s
  | VArr l =>
      Harr l ((fix items (l : list value) : Forall P l :=
                 match l with
                 | [] => List.Forall_nil P
                 | x :: r => @List.Forall_cons _ P x r (value_nested_ind x) (items r)
                 end) l)
  | VObj o =>
      Hobj o ((fix props (o : list (string * value))
                 : Forall (fun kv => P (snd kv)) o :=
                 match o with
                 | [] => List.Forall_nil _
                 | kv :: r =>
                     @List.Forall_cons _ (fun kv => P (snd kv)) kv r
                       (value_nested_ind (snd kv)) (props r)
                 end) o)
  | VServerTimestamp => Hsentinel
  | VTimestamp t => Htimestamp t
  end.

End ValueInduction.

Module Store.

(** ** Queries *)

(** Modelled from the spec: the document store's query contract (section
    4.2: query by equality filter, array membership on [tags], ordered
    retrieval descending by timestamp, a result-count limit).  The store
    itself is an external service. *)
Definition matches (f : filter) (d : doc) : bool :=
  match f with
  | WhereEq field v => value_eqb (Js.get field (doc_data d)) v
  | WhereArrayContains field v =>
      match Js.get field (doc_data d) with
      | VArr items => existsb (value_eqb v) items
      | _ => false
      end
  end.

(** The position of a document in an ordering by [field]; a document
    without a timestamp there does not take part in the ordering. *)
Definition order_key (field : string) (d : doc) : option Z :=
  match Js.get field (doc_data d) with
  | VTimestamp t => Some t
  | _ => None
  end.

Definition key_of (field : string) (d : doc) : Z :=
  default 0 (order_key field d).

Definition descending (field : string) (a b : doc) : Prop :=
  key_of field b <= key_of field a.

Definition ascending (field : string) (a b : doc) : Prop :=
  key_of field a <= key_of field b.

#[global] Instance descending_dec field : RelDecision (descending field).
Proof. intros a b. unfold descending. apply Z_le_dec. Defined.

#[global] Instance ascending_dec field : RelDecision (ascending field).
Proof. intros a b. unfold ascending. apply Z_le_dec. Defined.

Definition order_by (o : option (string * string)) (docs : list doc)
  : list doc :=
  match o with
  | None => docs
  | Some (field, direction) =>
      let present :=
        List.filter (fun d => bool_decide (is_Some (order_key field d))) docs in
      if String.eqb direction "desc"
      then merge_sort (descending field) present
      else merge_sort (ascending field) present
  end.

(** Modelled from the spec: ordered, filtered, limited retrieval. *)
Definition eval_query (q : query) (n : Z) (docs : list doc) : list doc :=
  take (Z.to_nat n)
    (order_by (q_orderBy q)
       (List.filter (fun d => forallb (fun f => matches f d) (q_where q)) docs)).

(** ** The state of the collaborators *)
Record world : Type := World {
  collections : gmap string (list doc);   (* oldest document first *)
  clock : Z;                              (* server time *)
  next_id : nat;
  uploads : list file;
  sheet : option (list value);
  drive_listing : option (list value);
  generate : value -> value -> string;    (* model, prompt |-> text *)
  fault : call -> option string;          (* calls that reject *)
  reads : nat;                            (* reads of the process so far *)
  dates : nat -> string;                  (* what each read finds: the date, *)
  uptimes : nat -> number;                (* the uptime *)
  memory_usages : nat -> fields           (* and the memory usage *)
}.

Definition documents (collection : string) (w : world) : list doc :=
  default [] (collections w !! collection).

(** Modelled from the spec: a generated id is never empty. *)
Definition auto_id (n : nat) : string := "doc" +:+ Js.index_key n.

(** The server replaces the timestamp sentinel by its own time. *)
Definition resolved (t : Z) (v : value) : value :=
  match v with
  | VServerTimestamp => VTimestamp t
  | _ => v
  end.

Definition resolve (t : Z) (data : fields) : fields :=
  map (fun kv => (fst kv, resolved t (snd kv))) data.

(** Modelled from the spec: insert with a server-assigned id and a
    server-assigned timestamp (section 4.2). *)
Definition add (collection : string) (data : fields) (w : world)
  : string * world :=
  let id := auto_id (next_id w) in
  let d := Doc id (resolve (clock w) data) in
  (id, {| collections :=
            <[collection := (documents collection w ++ [d])%list]> (collections w);
          clock := clock w + 1;
          next_id := S (next_id w);
          uploads := uploads w;
          sheet := sheet w;
          drive_listing := drive_listing w;
          generate := generate w;
          fault := fault w;
          reads := reads w;
          dates := dates w;
          uptimes := uptimes w;
          memory_usages := memory_usages w |}).

Definition save (f : file) (w : world) : world :=
  {| collections := collections w;
     clock := clock w;
     next_id := next_id w;
     uploads := (uploads w ++ [f])%list;
     sheet := sheet w;
     drive_listing := drive_listing w;
     generate := generate w;
     fault := fault w;
     reads := reads w;
     dates := dates w;
     uptimes := uptimes w;
     memory_usages := memory_usages w |}.

(** How each call is settled when it does not reject. *)
Definition settle (c : call) (w : world) : outcome (reply c) * world :=
  match c return outcome (reply c) * world with
  | FirestoreGet collection q =>
      match q_limit q with
      | None => (Throw "Value for argument 'limit' is not a valid integer.", w)
      | Some n =>
          if n <? 0 then (Throw "limit is negative", w)
          else (Ok (eval_query q n (documents collection w)), w)
      end
  | FirestoreAdd collection data =>
      let '(id, w1) := add collection data w in (Ok id, w1)
  | FirestoreCount collection =>
      (Ok (Z.of_nat (length (documents collection w))), w)
  | BucketExists => (Ok tt, w)
  | FileSave fileName content metadata =>
      (Ok tt, save (File fileName metadata) w)
  | BucketGetFiles maxResults => (Ok (take (Z.to_nat maxResults) (uploads w)), w)
  | GenerateContent model prompt => (Ok (generate w model prompt), w)
  | SheetsValuesGet _ _ => (Ok (sheet w), w)
  | DriveFilesList _ _ => (Ok (drive_listing w), w)
  end.

Definition respond (c : call) (w : world) : outcome (reply c) * world :=
  match fault w c with
  | Some message => (Throw message, w)
  | None => settle c w
  end.

(** Time passes between two reads of the process: each read finds what
    the world holds for it, and is counted. *)
Definition tick (w : world) : world :=
  {| collections := collections w;
     clock := clock w;
     next_id := next_id w;
     uploads := uploads w;
     sheet := sheet w;
     drive_listing := drive_listing w;
     generate := generate w;
     fault := fault w;
     reads := S (reads w);
     dates := dates w;
     uptimes := uptimes w;
     memory_usages := memory_usages w |}.

Definition sys (r : sysread) (w : world) : sys_reply r * world :=
  match r return sys_reply r * world with
  | DateNow => (dates w (reads w), tick w)
  | ProcessUptime => (uptimes w (reads w), tick w)
  | ProcessMemory => (memory_usages w (reads w), tick w)
  end.

Definition env : collaborators world := Collaborators world respond sys.

(** Two digits, and three, of a number, as a date prints them. *)
Definition digit (z : Z) : string := Js.number_to_string (NInt (z mod 10)).

Definition two_digits (z : Z) : string := digit (z / 10) +:+ digit z.

Definition three_digits (z : Z) : string := digit (z / 100) +:+ two_digits z.

(** The date [ms] milliseconds into the first of January 2025. *)
Definition new_year_2025 (ms : nat) : string :=
  let t := Z.of_nat ms in
  "2025-01-01T" +:+ two_digits (t / 3600000 mod 24) +:+ ":"
  +:+ two_digits (t / 60000 mod 60) +:+ ":"
  +:+ two_digits (t / 1000 mod 60) +:+ "."
  +:+ three_digits (t mod 1000) +:+ "Z".

(** A store with the given [memory] and [properties] collections and
    collaborators that never reject; a millisecond of the date and a
    second of uptime pass between two reads of the process. *)
Definition healthy (memory properties : list doc) : world := {|
  collections := <["memory" := memory]> (<["properties" := properties]> ∅);
  clock := 1000;
  next_id := 0;
  uploads := [];
  sheet := None;
  drive_listing := None;
  generate := fun _ _ => "generated text";
  fault := fun _ => None;
  reads := 0;
  dates := new_year_2025;
  uptimes := fun n => NInt (Z.of_nat (S n));
  memory_usages := fun _ => []
|}.

End Store.


(* ===================================================================== *)
(** * Part 4b: startup *)
(* ===================================================================== *)

(** [const PORT = process.env.PORT || 8080] *)
Definition PORT (env : string -> option string) : value :=
  match env "PORT" with
  | Some v => if String.eqb v "" then int 8080 else VStr v
  | None => int 8080
  end.

Module Boot.

(** The module-level client handles [firestore], [storage], [bucket],
    [vertex], [sheets], [drive]: each is [undefined] until assigned. *)
Inductive handle : Type :=
| Firestore | Storage | Bucket | Vertex | Sheets | Drive.

(** The calls into the SDKs made while starting; each may throw. *)
Inductive step : Type :=
| AdminInitializeApp   (* admin.initializeApp({ credential, projectId }) *)
| AdminFirestore       (* admin.firestore() *)
| NewStorage           (* new Storage({ projectId }) *)
| StorageBucket        (* storage.bucket(CONFIG.bucket) *)
| NewVertexAI          (* new VertexAI({ project, location }) *)
| NewGoogleAuth        (* new google.auth.GoogleAuth({ scopes }) *)
| GoogleSheets         (* google.sheets({ version: 'v4', auth }) *)
| GoogleDrive          (* google.drive({ version: 'v3', auth }) *)
| AppListen.           (* app.listen(PORT, ..) *)

(** The SDKs as the process finds them: the number of Firebase apps that
    already exist ([admin.apps.length]), the steps that throw when they
    are called, and the error the server emits after [app.listen] has
    returned, when it cannot bind the port (the port is in use, or not
    permitted). *)
Record sdk : Type := Sdk {
  apps_length : nat;
  throws : step -> option string;
  listen_error : option string
}.

(** What starting has done so far: the handles assigned, the steps
    invoked and the console lines written, each in order. *)
Record state : Type := State {
  assigned : list handle;
  invoked : list step;
  output : list (string * string * string)    (* level, text, detail *)
}.

Definition initial : state := State [] [] [].

Definition boot (A : Type) : Type := state -> outcome A * state.

Definition pure {A} (a : A) : boot A := fun st => (Ok a, st).

Definition bind {A B} (m : boot A) (k : A -> boot B) : boot B :=
  fun st =>
    match m st with
    | (Ok a, st1) => k a st1
    | (Throw e, st1) => (Throw e, st1)
    end.

(** [try { m } catch (error) { h error }] *)
Definition attempt {A} (m : boot A) (h : string -> boot A) : boot A :=
  fun st =>
    match m st with
    | (Ok a, st1) => (Ok a, st1)
    | (Throw e, st1) => h e st1
    end.

Definition invoke (k : sdk) (s : step) : boot unit :=
  fun st =>
    let st1 := State (assigned st) (invoked st ++ [s])%list (output st) in
    match throws k s with
    | Some message => (Throw message, st1)
    | None => (Ok tt, st1)
    end.

Definition assign (h : handle) : boot unit :=
  fun st => (Ok tt, State (assigned st ++ [h])%list (invoked st) (output st)).

Definition say (level text detail : string) : boot unit :=
  fun st =>
    (Ok tt, State (assigned st) (invoked st)
                  (output st ++ [(level, text, detail)])%list).

Notation "'let+' x ':=' m 'in' k" := (bind m (fun x => k))
  (at level 10, x name, m at level 100, k at level 200, only parsing).
Notation "m ';+' k" := (bind m (fun _ => k))
  (at level 100, k at level 200, only parsing, right associativity).

(** [async function initializeServices()] *)
Definition initializeServices (k : sdk) : boot bool :=
  attempt
    ((if (apps_length k =? 0)%nat then invoke k AdminInitializeApp else pure tt) ;+
     invoke k AdminFirestore ;+
     assign Firestore ;+
     say "log" "✓ Firestore initialized" "" ;+
     invoke k NewStorage ;+
     assign Storage ;+
     invoke k StorageBucket ;+
     assign Bucket ;+
     say "log" "✓ Cloud Storage initialized" "" ;+
     invoke k NewVertexAI ;+
     assign Vertex ;+
     say "log" "✓ Vertex AI initialized" "" ;+
     invoke k NewGoogleAuth ;+
     invoke k GoogleSheets ;+
     assign Sheets ;+
     invoke k GoogleDrive ;+
     assign Drive ;+
     say "log" "✓ Google APIs initialized" "" ;+
     pure true)
    (fun error =>
       say "error" "❌ Service initialization error:" error ;+
       pure false).

(** How the process stands after starting: accepting traffic on a port,
    gone through [process.exit] with an exit code, or brought down by an
    error event that nothing handles. *)
Inductive lifecycle : Type :=
| Listening (port : value)
| Exited (code : Z)
| Uncaught (error : string).

(** The exit code of a process that is gone: Node ends with code 1 on an
    uncaught error. *)
Definition exit_code (l : lifecycle) : option Z :=
  match l with
  | Listening _ => None
  | Exited code => Some code
  | Uncaught _ => Some 1
  end.

Fixpoint repeat_text (s : string) (n : nat) : string :=
  match n with
  | O => ""
  | S n' => s +:+ repeat_text s n'
  end.

Definition text_of (v : value) : string :=
  match Js.to_string v with
  | Ok s => s
  | Throw _ => ""
  end.

(** The lines the [app.listen] callback prints. *)
Definition banner (cfg : config) (port : value) : list string := [
  nl +:+ "✓ Server started successfully";
  nl +:+ "🌐 Listening on: http://localhost:" +:+ text_of port;
  "📊 Environment: " +:+ nodeEnv cfg;
  "🏗️  Project: " +:+ project cfg;
  "📍 Region: " +:+ location cfg;
  "🪣 Bucket: " +:+ bucket cfg;
  nl +:+ "📡 Endpoints:";
  "   GET  /health";
  "   GET  /api/status";
  "   POST /api/ai/query";
  "   POST /api/memory/store";
  "   GET  /api/memory/search";
  "   POST /api/storage/upload";
  "   GET  /api/storage/files";
  "   GET  /api/sheets/investor-data";
  "   GET  /api/drive/files";
  "   GET  /api/firestore/properties";
  "   POST /api/firestore/properties";
  "   GET  /api/real-estate/overview";
  nl +:+ repeat_text "═" 70 +:+ nl
].

Fixpoint say_all (lines : list string) : boot unit :=
  match lines with
  | [] => pure tt
  | line :: rest => say "log" line "" ;+ say_all rest
  end.

(** [async function startServer()]: [process.exit(1)] ends the process, so
    nothing after it runs.  [app.listen] throws when it is called with a
    port it cannot take at all; otherwise it returns, and the server either
    starts listening, which runs the callback, or emits an error, for which
    the program registers no handler: the callback never runs and the
    process ends without a line of its own. *)
Definition startServer (k : sdk) (cfg : config) (port : value) : boot lifecycle :=
  say "log" (nl +:+ "🚀 Real Estate Intelligence - Production Server v5.0.0") "" ;+
  say "log" (repeat_text "═" 70) "" ;+
  say "log" (nl +:+ "📡 Initializing Google Cloud services...") "" ;+
  let+ servicesReady := initializeServices k in
  if negb servicesReady then
    say "error"
      (nl +:+ "❌ Failed to initialize services. Check credentials and configuration.")
      "" ;+
    pure (Exited 1)
  else
    invoke k AppListen ;+
    match listen_error k with
    | Some error => pure (Uncaught error)
    | None =>
        say_all (banner cfg port) ;+
        pure (Listening port)
    end.

(** [startServer().catch(err => { console.error(..); process.exit(1); })] *)
Definition main (k : sdk) (cfg : config) (port : value) : lifecycle * state :=
  match startServer k cfg port initial with
  | (Ok l, st) => (l, st)
  | (Throw e, st) =>
      (Exited 1,
       State (assigned st) (invoked st)
             (output st ++ [("error", "❌ Failed to start server:", e)])%list)
  end.

(** [process.on('SIGTERM', ..)] and [process.on('SIGINT', ..)]: the two
    signals the process handles end it with code 0. *)
Inductive signal : Type := SIGTERM | SIGINT.

Definition signal_name (s : signal) : string :=
  match s with
  | SIGTERM => "SIGTERM"
  | SIGINT => "SIGINT"
  end.

Definition on_signal (s : signal) (st : state) : lifecycle * state :=
  (Exited 0,
   State (assigned st) (invoked st)
         (output st ++ [("log", nl +:+ "🛑 " +:+ signal_name s
                                  +:+ " received. Shutting down gracefully...",
                         "")])%list).

End Boot.
(* ===================================================================== *)
(** * Part 5: vocabulary of the properties *)
(* ===================================================================== *)

(** ** What holds of every result a program can produce *)
Inductive every {A} (P : A -> Prop) : prog A -> Prop :=
| every_ret a : P a -> every P (Ret a)
| every_call c k : (forall o, every P (k o)) -> every P (Call c k)
| every_read r k : (forall x, every P (k x)) -> every P (Read r k)
| every_log lv lb d p : every P p -> every P (Log lv lb d p).

(** What holds of every collaborator call a program can issue. *)
Inductive issues {A} (P : call -> Prop) : prog A -> Prop :=
| issues_ret a : issues P (Ret a)
| issues_call c k : P c -> (forall o, issues P (k o)) -> issues P (Call c k)
| issues_read r k : (forall x, issues P (k x)) -> issues P (Read r k)
| issues_log lv lb d p : issues P p -> issues P (Log lv lb d p).

(** What holds of every normal result of code inside a [try]. *)
Definition normally {A} (P : A -> Prop) (o : outcome A) : Prop :=
  match o with
  | Ok a => P a
  | Throw _ => True
  end.

(** ** Response bodies
    [JSON.stringify] drops a property whose value is [undefined], so a
    field is present in the JSON body when it is defined. *)
Definition present (k : string) (o : fields) : Prop := Js.get k o <> VUndefined.
Definition absent (k : string) (o : fields) : Prop := Js.get k o = VUndefined.

(** Where a success response carries its timestamp: POST /api/ai/query puts
    it inside [data], every other route at the top of the body. *)
Definition stamped (rt : route) (r : response) : Prop :=
  match rt with
  | AiQuery =>
      absent "timestamp" (body r) /\
      exists data, Js.get "data" (body r) = VObj data /\ present "timestamp" data
  | _ => present "timestamp" (body r)
  end.

(** The shape of the responses of a route: the liveness routes answer
    outside the envelope; the others answer a success with [data] or a
    failure with [error], a validation failure (400) without timestamp. *)
Definition envelope (rt : route) (r : response) : Prop :=
  match rt with
  | Health | ApiStatus =>
      status r = 200 /\ present "timestamp" (body r) /\
      absent "success" (body r) /\ absent "data" (body r) /\ absent "error" (body r)
  | _ =>
      match Js.get "success" (body r) with
      | VBool true =>
          status r = 200 /\ present "data" (body r) /\ absent "error" (body r) /\
          stamped rt r
      | VBool false =>
          (status r = 400 /\ absent "timestamp" (body r) \/ status r = 500) /\
          present "error" (body r) /\ absent "data" (body r)
      | _ => False
      end
  end.

(** The total a count settles to in GET /api/real-estate/overview. *)
Definition count_value (o : outcome Z) : value :=
  match o with
  | Ok n => int n
  | Throw _ => int 0
  end.

(** ** Proof automation *)

(** Case analysis on the next collaborator reply or process read. *)
Ltac next_reply :=
  match goal with
  | |- context [respond ?env ?c ?w] =>
      let o := fresh "o" in let w' := fresh "w" in
      destruct (respond env c w) as [[o|o] w']; cbn
  | |- context [sys ?env ?r ?w] =>
      let x := fresh "x" in let w' := fresh "w" in
      destruct (sys env r w) as [x w']; cbn
  end.

(** Descend to the results of a program without a [try]. *)
Ltac to_leaf :=
  cbn;
  repeat first
    [ apply every_log
    | apply every_read; intros ?
    | apply every_call; intros ?
    | apply every_ret ].

Ltac envelope_leaf :=
  cbn; unfold present, absent; cbn;
  repeat split; try discriminate; try reflexivity; auto;
  try (eexists; split; [reflexivity | discriminate]).

(** ** Requests *)

(** The body is a parsed JSON value, as express.json() leaves it. *)
Definition parsed (v : value) : Prop := v <> VUndefined /\ v <> VNull.

(** The handlers' test [!field]: the field is missing, or it is [null],
    [false], [0] or the empty string. *)
Definition lacks (k : string) (v : value) : Prop :=
  Js.truthy (Js.get k (Js.own_props v)) = false.

(** A validation answer: status 400, an error envelope with the given
    text, no call to a collaborator, no log line, and the collaborators
    left in the state [w] they were in. *)
Definition rejected {W} (w : W) (text : string) (x : response * list event * W)
  : Prop :=
  status (result x) = 400 /\
  Js.get "success" (body (result x)) = VBool false /\
  Js.get "error" (body (result x)) = VStr text /\
  Js.get "data" (body (result x)) = VUndefined /\
  trace x = [] /\
  final x = w.

(** ** Traces *)
Definition is_fetch (c : call) : bool :=
  match c with
  | FirestoreGet _ _ => true
  | _ => false
  end.

(** The prompts handed to the generative model, in order. *)
Fixpoint prompts (cs : list call) : list value :=
  match cs with
  | [] => []
  | GenerateContent _ prompt :: rest => prompt :: prompts rest
  | _ :: rest => prompts rest
  end.

(** The two fields POST /api/firestore/properties overwrites. *)
Definition server_stamped (k : string) : bool :=
  String.eqb k "timestamp" || String.eqb k "updatedAt".


(** The decimal numeral of [n], as a client writes it in a query string. *)
Definition decimal (n : nat) : string := NilZero.string_of_uint (Nat.to_uint n).

(** ** Memory queries *)

(** The query POST /api/ai/query fetches its context with. *)
Definition recent_memories : query :=
  Query [] (Some ("timestamp", "desc")) (Some 5).

(** The final value of [context] once the records [docs] are fetched. *)
Definition context_of (docs : list doc) : string :=
  match Js.join (nl +:+ nl)
          (map (fun m => Js.get "content" (Js.own_props m))
             (map doc_object docs)) with
  | Ok s => s
  | Throw _ => ""
  end.

(** The prompt built from a context and a query. *)
Definition prompt_of (context : string) (query : value) : outcome value :=
  if Js.truthy (VStr context) then context_prompt context query else Ok query.

(** A document carries a server timestamp. *)
Definition timestamped (d : doc) : Prop :=
  exists t, Js.get "timestamp" (doc_data d) = VTimestamp t.

(** Every insert carries the server-timestamp sentinel in [timestamp]. *)
Definition stamps_inserts (c : call) : Prop :=
  match c with
  | FirestoreAdd _ data => Js.get "timestamp" data = VServerTimestamp
  | _ => True
  end.

(** Every document of every collection of the store is timestamped. *)
Definition all_timestamped (sw : Store.world) : Prop :=
  forall collection, Forall timestamped (Store.documents collection sw).

(** Newest first: every document is timestamped and none is older than
    any document after it. *)
Definition newest_first (docs : list doc) : Prop :=
  Forall timestamped docs /\
  StronglySorted (Store.descending "timestamp") docs.

(** A document's [tags] array has [tag] among its elements. *)
Definition tagged (tag : value) (d : doc) : Prop :=
  exists items, Js.get "tags" (doc_data d) = VArr items /\ In tag items.

Definition is_membership (f : filter) : bool :=
  match f with
  | WhereArrayContains _ _ => true
  | WhereEq _ _ => false
  end.

(** The array-membership filters a call carries. *)
Definition membership_filters (c : call) : list filter :=
  match c with
  | FirestoreGet _ q => List.filter is_membership (q_where q)
  | _ => []
  end.

(** The answer of a search handler to the reply of its query. *)
Definition search_answer (listing : string) (o : outcome (list doc))
    (r : response) : Prop :=
  match o with
  | Ok docs =>
      status r = 200 /\
      Js.get "success" (body r) = VBool true /\
      exists data,
        Js.get "data" (body r) = VObj data /\
        Js.get listing data = VArr (map doc_object docs) /\
        Js.get "count" data = len docs
  | Throw message =>
      status r = 500 /\
      Js.get "success" (body r) = VBool false /\
      Js.get "error" (body r) = VStr message
  end.

(** ** Sample data for the worked examples *)
Definition elm_street : doc :=
  Doc "m1" [("type", VStr "note");
            ("content", VStr "3 bed, 2 bath on Elm St");
            ("tags", VArr [VStr "listing"]);
            ("timestamp", VTimestamp 7)].

Definition zoning_memo : doc :=
  Doc "m2" [("type", VStr "memo");
            ("content", VStr "Zoning change near the river");
            ("tags", VArr [VStr "zoning"; VStr "austin"]);
            ("timestamp", VTimestamp 9)].

Definition sample_store : Store.world :=
  Store.healthy [elm_street; zoning_memo] [].

Definition search (params : fields) : request :=
  Request "GET" "/api/memory/search" VUndefined (VObj params).

(* ===================================================================== *)
(** * Part 5b: vocabulary of the further properties *)
(* ===================================================================== *)

(** ** Calls *)

(** The calls that change what a collaborator holds. *)
Definition is_write (c : call) : bool :=
  match c with
  | FirestoreAdd _ _ | FileSave _ _ _ => true
  | _ => false
  end.

(** The routes registered with [app.get]. *)
Definition read_only (rt : route) : bool :=
  match rt with
  | AiQuery | MemoryStore | StorageUpload | PropertiesCreate => false
  | _ => true
  end.

(** The routes that check their input. *)
Definition validating (rt : route) : bool :=
  match rt with
  | AiQuery | MemoryStore | StorageUpload => true
  | _ => false
  end.

(** The most collaborator calls one request of a route can cause. *)
Definition call_budget (rt : route) : nat :=
  match rt with
  | Health => 0
  | ApiStatus | RealEstateOverview => 2
  | AiQuery => 3
  | _ => 1
  end.

(** The status codes a route can answer with. *)
Definition may_answer (rt : route) (s : Z) : Prop :=
  match rt with
  | Health | ApiStatus | RealEstateOverview => s = 200
  | AiQuery | MemoryStore | StorageUpload => s = 200 \/ s = 400 \/ s = 500
  | _ => s = 200 \/ s = 500
  end.

(** ** Proof automation *)

(** Case analysis along a run: on each collaborator reply, process read,
    caught exception and test, until the run is settled. *)
Ltac crack :=
  repeat (cbn;
    match goal with
    | |- context [respond ?env ?c ?w] =>
        let o := fresh "o" in let w' := fresh "w" in
        destruct (respond env c w) as [[o|o] w']
    | |- context [sys ?env ?r ?w] =>
        let x := fresh "x" in let w' := fresh "w" in
        destruct (sys env r w) as [x w']
    | |- context [match ?x with Ok _ => _ | Throw _ => _ end] => destruct x
    | |- context [if ?b then _ else _] => destruct b
    end).

(** ** GET /api/status *)

(** What a probe reports of the reply to its call. *)
Definition probe_text {A} (o : outcome A) : value :=
  match o with
  | Ok _ => VStr "active"
  | Throw _ => VStr "error"
  end.

Definition health_check : call :=
  FirestoreGet "_health_check" (Query [] None (Some 1)).

(** ** Sample collaborators for the worked examples *)

(** A store like [sample_store] whose writes all reject. *)
Definition read_only_store : Store.world := {|
  Store.collections := Store.collections sample_store;
  Store.clock := Store.clock sample_store;
  Store.next_id := Store.next_id sample_store;
  Store.uploads := [];
  Store.sheet := None;
  Store.drive_listing := None;
  Store.generate := fun _ _ => "generated text";
  Store.fault := fun c => if is_write c then Some "PERMISSION_DENIED" else None;
  Store.reads := 0;
  Store.dates := Store.dates sample_store;
  Store.uptimes := Store.uptimes sample_store;
  Store.memory_usages := Store.memory_usages sample_store
|}.

(** A store like [sample_store] whose reads of documents all reject. *)
Definition unreadable_store : Store.world := {|
  Store.collections := Store.collections sample_store;
  Store.clock := Store.clock sample_store;
  Store.next_id := Store.next_id sample_store;
  Store.uploads := [];
  Store.sheet := None;
  Store.drive_listing := None;
  Store.generate := fun _ _ => "generated text";
  Store.fault := fun c => if is_fetch c then Some "UNAVAILABLE" else None;
  Store.reads := 0;
  Store.dates := Store.dates sample_store;
  Store.uptimes := Store.uptimes sample_store;
  Store.memory_usages := Store.memory_usages sample_store
|}.

Definition ask (body : fields) : request :=
  Request "POST" "/api/ai/query" (VObj body) (VObj []).

(** ** Listings *)

(** A 200 answer lists an array under [listing] and counts its elements. *)
Definition counted (listing : string) (r : response) : Prop :=
  status r <> 200 \/
  exists data items,
    Js.get "data" (body r) = VObj data /\
    Js.get listing data = VArr items /\
    Js.get "count" data = len items.

Definition upload (body : fields) : request :=
  Request "POST" "/api/storage/upload" (VObj body) (VObj []).

(** ** The reference store over time *)

(** Every stored document carries a timestamp earlier than the store's
    clock. *)
Definition dated (sw : Store.world) : Prop :=
  forall collection,
    Forall (fun d => exists t,
              Js.get "timestamp" (doc_data d) = VTimestamp t /\
              t < Store.clock sw)
      (Store.documents collection sw).

Definition reads_only (c : call) : Prop := is_write c = false.

(** What the reference store holds: its documents, its uploaded files, its
    clock and its id counter. *)
Definition holdings (sw : Store.world)
  : gmap string (list doc) * list file * Z * nat :=
  (Store.collections sw, Store.uploads sw, Store.clock sw, Store.next_id sw).

(** ** Property listings *)
Definition list_properties (params : fields) : request :=
  Request "GET" "/api/firestore/properties" VUndefined (VObj params).

Definition create_property (body : fields) : request :=
  Request "POST" "/api/firestore/properties" (VObj body) (VObj []).

Definition austin_listing : doc :=
  Doc "p1" [("address", VStr "1 Main St"); ("city", VStr "Austin");
            ("zipCode", VStr "78701"); ("timestamp", VTimestamp 3);
            ("updatedAt", VTimestamp 3)].

Definition dallas_listing : doc :=
  Doc "p2" [("address", VStr "9 Elm St"); ("city", VStr "Dallas");
            ("zipCode", VStr "75201"); ("timestamp", VTimestamp 4);
            ("updatedAt", VTimestamp 4)].

Definition property_store : Store.world :=
  Store.healthy [] [austin_listing; dallas_listing].

(** ** Startup *)

(** The client handles, in the order [initializeServices] assigns them. *)
Definition services : list Boot.handle :=
  [Boot.Firestore; Boot.Storage; Boot.Bucket; Boot.Vertex; Boot.Sheets;
   Boot.Drive].

(** SDKs in which exactly the step [failing] throws, and the port is
    free. *)
Definition sdk_failing_at (failing : Boot.step) (message : string) : Boot.sdk :=
  Boot.Sdk 0 (fun s =>
    match s, failing with
    | Boot.AdminInitializeApp, Boot.AdminInitializeApp
    | Boot.AdminFirestore, Boot.AdminFirestore
    | Boot.NewStorage, Boot.NewStorage
    | Boot.StorageBucket, Boot.StorageBucket
    | Boot.NewVertexAI, Boot.NewVertexAI
    | Boot.NewGoogleAuth, Boot.NewGoogleAuth
    | Boot.GoogleSheets, Boot.GoogleSheets
    | Boot.GoogleDrive, Boot.GoogleDrive
    | Boot.AppListen, Boot.AppListen => Some message
    | _, _ => None
    end) None.
(* ===================================================================== *)
(** * Part 6: properties *)
(* ===================================================================== *)

(** ** Equality of values *)

Lemma number_eqb_eq (a b : number) : number_eqb a b = true <-> a = b.
Proof.
  destruct a, b; simpl; split; intros H; try discriminate.
  - apply Z.eqb_eq in H. congruence.
  - injection H as ->. apply Z.eqb_refl.
  - apply String.eqb_eq in H. congruence.
  - injection H as ->. apply String.eqb_refl.
Qed.

Lemma value_eqb_eq (a b : value) : value_eqb a b = true <-> a = b.
Proof.
  revert b. induction a using value_nested_ind; intros b'; destruct b';
    simpl; try (split; [discriminate | congruence]); try tauto.
  - rewrite Bool.eqb_true_iff. split; congruence.
  - rewrite number_eqb_eq. split; congruence.
  - rewrite String.eqb_eq. split; congruence.
  - revert items. induction H as [|x r Hx Hr IH]; intros [|y r2];
      try (split; [discriminate | congruence]); try tauto.
    rewrite andb_true_iff, Hx, IH. split.
    + intros [-> E]. congruence.
    + intros E. injection E as -> ->. tauto.
  - revert fields0. induction H as [|[k x] r Hx Hr IH]; intros [|[k2 y] r2];
      try (split; [discriminate | congruence]); try tauto.
    simpl in Hx. rewrite !andb_true_iff, String.eqb_eq, Hx, IH. split.
    + intros [[-> ->] E]. congruence.
    + intros E. injection E as -> -> ->. tauto.
  - rewrite Z.eqb_eq. split; congruence.
Qed.

(** ** Objects *)

Lemma get_from (k : string) (o : fields) (found : value) :
  fold_left (fun found kv => if String.eqb k (fst kv) then snd kv else found)
    o found
  = if Js.has_own k o then Js.get k o else found.
Proof.
  unfold Js.get. revert found.
  induction o as [|[k' v'] o IH]; intros found; simpl; [reflexivity|].
  destruct (String.eqb k k'); simpl; [reflexivity|].
  apply IH.
Qed.

Lemma get_app (k : string) (o1 o2 : fields) :
  Js.get k (o1 ++ o2)%list = if Js.has_own k o2 then Js.get k o2 else Js.get k o1.
Proof. unfold Js.get at 1. rewrite fold_left_app. apply get_from. Qed.

Lemma get_missing (k : string) (o : fields) :
  Js.has_own k o = false -> Js.get k o = VUndefined.
Proof. intros E. unfold Js.get. rewrite get_from, E. reflexivity. Qed.

(** ** [parseInt] reads back a decimal numeral *)

Lemma scan_digits_uint (d : Decimal.uint) (acc : option Z) (a : nat) :
  default 0 acc = Z.of_nat a ->
  Js.scan_digits 10 acc (NilEmpty.string_of_uint d) =
    match d with
    | Decimal.Nil => acc
    | _ => Some (Z.of_nat (Nat.of_uint_acc d a))
    end.
Proof.
  revert acc a.
  induction d as [|d IH|d IH|d IH|d IH|d IH|d IH|d IH|d IH|d IH|d IH];
    intros acc a Ha; [reflexivity|..].
  all: cbn [NilEmpty.string_of_uint Js.scan_digits].
  all: match goal with
       | |- context [Js.digit_value 10 ?c] =>
           let v := eval vm_compute in (Js.digit_value 10 c) in
           change (Js.digit_value 10 c) with v
       end; cbv iota.
  all: cbn [Nat.of_uint_acc].
  all: match goal with
       | |- _ = Some (Z.of_nat (Nat.of_uint_acc _ ?a')) =>
           rewrite (IH _ a') by
             (cbn [default option_map from_option id]; rewrite Ha;
              rewrite ?Nat2Z.inj_succ, Nat.tail_mul_spec, Nat2Z.inj_mul;
              simpl Z.of_nat; lia)
       end.
  all: destruct d; try reflexivity.
  all: cbn [Nat.of_uint_acc]; f_equal; rewrite Ha;
       rewrite ?Nat2Z.inj_succ, Nat.tail_mul_spec, Nat2Z.inj_mul;
       simpl Z.of_nat; lia.
Qed.

Lemma trim_start_ascii (a : ascii) (rest : string) :
  Js.is_space a = false -> (nat_of_ascii a < 128)%nat ->
  Js.trim_start (String a rest) = String a rest.
Proof.
  intros Hs Ha. cbn [Js.trim_start]. rewrite Hs.
  assert (E2 : forall b, Js.is_space2 a b = false).
  { intros b. unfold Js.is_space2.
    destruct (Nat.eqb_spec (nat_of_ascii a) 194); [lia|reflexivity]. }
  assert (E3 : forall b c, Js.is_space3 a b c = false).
  { intros b c. unfold Js.is_space3. cbv zeta.
    destruct (Nat.eqb_spec (nat_of_ascii a) 225); [lia|].
    destruct (Nat.eqb_spec (nat_of_ascii a) 226); [lia|].
    destruct (Nat.eqb_spec (nat_of_ascii a) 227); [lia|].
    destruct (Nat.eqb_spec (nat_of_ascii a) 239); [lia|]. reflexivity. }
  destruct rest as [|b [|c rest3]]; rewrite ?E2, ?E3; reflexivity.
Qed.

Lemma numeral_unsigned (d : Decimal.uint) :
  Js.strip_sign (Js.trim_start (NilEmpty.string_of_uint d))
  = (false, NilEmpty.string_of_uint d).
Proof.
  destruct d; [reflexivity|..]; cbn [NilEmpty.string_of_uint];
    rewrite trim_start_ascii
      by first [reflexivity | apply Nat.ltb_lt; reflexivity]; reflexivity.
Qed.

Lemma numeral_radix_10 (d : Decimal.uint) :
  Js.strip_prefix (NilEmpty.string_of_uint d) = (10, NilEmpty.string_of_uint d).
Proof. destruct d as [|d| | | | | | | | |]; try reflexivity. destruct d; reflexivity. Qed.

Lemma to_uint_not_nil (n : nat) : Nat.to_uint n <> Decimal.Nil.
Proof.
  intros E. pose proof (DecimalNat.Unsigned.of_to n) as Hn.
  rewrite E in Hn. cbn in Hn. subst n. discriminate E.
Qed.

Lemma to_double_safe (z : Z) :
  Z.abs z <= Js.MAX_SAFE_INTEGER -> Js.to_double z = Some z.
Proof.
  intros H. unfold Js.to_double.
  destruct (Z.leb_spec (Z.abs z) Js.MAX_SAFE_INTEGER); [reflexivity|lia].
Qed.

Lemma parseInt_decimal (n : nat) :
  Z.of_nat n <= Js.MAX_SAFE_INTEGER ->
  Js.parseInt (VStr (decimal n)) = Ok (Some (Z.of_nat n)).
Proof.
  intros Hsafe.
  unfold Js.parseInt, decimal. cbn [Js.to_string obind]. f_equal.
  pose proof (to_uint_not_nil n) as Hne.
  assert (E : NilZero.string_of_uint (Nat.to_uint n)
              = NilEmpty.string_of_uint (Nat.to_uint n)).
  { destruct (Nat.to_uint n); [contradiction | reflexivity..]. }
  rewrite E. unfold Js.parseInt_string.
  rewrite numeral_unsigned, numeral_radix_10.
  rewrite (scan_digits_uint _ None 0%nat) by reflexivity.
  pose proof (DecimalNat.Unsigned.of_to n) as Hn. unfold Nat.of_uint in Hn.
  destruct (Nat.to_uint n); [contradiction|..]; rewrite Hn;
    apply to_double_safe; lia.
Qed.

(** Beyond 2^53 the numeral is rounded to a double, a tie going to the even
    neighbour; a numeral past every double gives an infinity, which is no
    integer; white space is skipped, no-break space included. *)
Example parseInt_is_a_double :
  Js.parseInt (VStr "9007199254740993") = Ok (Some 9007199254740992) /\
  Js.parseInt (VStr "9007199254740995") = Ok (Some 9007199254740996) /\
  Js.parseInt (VStr ("1" +:+ Boot.repeat_text "0" 309)) = Ok None /\
  Js.parseInt (VStr (String "194" (String "160" " 42px"))) = Ok (Some 42).
Proof. vm_compute. repeat split. Qed.

(** ** Running programs *)

Lemma run_pbind {W A B} (env : collaborators W) (p : prog A) (k : A -> prog B)
    (w : W) :
  run env (pbind p k) w =
    let '(a, tr1, w1) := run env p w in
    let '(b, tr2, w2) := run env (k a) w1 in
    (b, (tr1 ++ tr2)%list, w2).
Proof.
  revert w. induction p as [a|c k' IH|r k' IH|lv lb d p IH]; intros w; simpl.
  - destruct (run env (k a) w) as [[b tr] w2]. reflexivity.
  - destruct (respond env c w) as [o w1]. rewrite IH.
    destruct (run env (k' o) w1) as [[a tr1] w2].
    destruct (run env (k a) w2) as [[b tr2] w3]. reflexivity.
  - destruct (sys env r w) as [x w1]. apply IH.
  - rewrite IH. destruct (run env p w) as [[a tr1] w1].
    destruct (run env (k a) w1) as [[b tr2] w2]. reflexivity.
Qed.

Lemma every_run {A} (P : A -> Prop) (p : prog A) :
  every P p ->
  forall {W} (env : collaborators W) (w : W), P (result (run env p w)).
Proof.
  induction 1 as [a Ha|c k _ IH|r k _ IH|lv lb d p _ IH]; intros W env w; simpl.
  - exact Ha.
  - destruct (respond env c w) as [o w1]. specialize (IH o W env w1).
    destruct (run env (k o) w1) as [[a tr] w2]. exact IH.
  - destruct (sys env r w) as [x w1]. apply IH.
  - specialize (IH W env w). destruct (run env p w) as [[a tr] w1]. exact IH.
Qed.

Lemma every_pbind {A B} (P : B -> Prop) (p : prog A) (k : A -> prog B) :
  (forall a, every P (k a)) -> every P (pbind p k).
Proof.
  intros Hk. induction p as [a|c k' IH|r k' IH|lv lb d p IH]; simpl.
  - apply Hk.
  - constructor. intros o. apply IH.
  - constructor. intros x. apply IH.
  - constructor. exact IH.
Qed.

Lemma every_mbind {A B} (P : B -> Prop) (p : M A) (k : A -> M B) :
  (forall a, every (normally P) (k a)) -> every (normally P) (mbind p k).
Proof.
  intros Hk. apply every_pbind. intros [a|m]; [apply Hk|].
  constructor. exact I.
Qed.

Lemma every_ret_ok {A} (P : A -> Prop) (a : A) : P a -> every (normally P) (ret a).
Proof. intros H. constructor. exact H. Qed.

Lemma every_handler_try {A} (P : A -> Prop) (p : M A) (h : string -> prog A) :
  every (normally P) p -> (forall m, every P (h m)) -> every P (handler_try p h).
Proof.
  intros Hp Hh. unfold handler_try.
  induction Hp as [[a|m] Ha|c k _ IH|r k _ IH|lv lb d p _ IH]; simpl.
  - constructor. exact Ha.
  - apply Hh.
  - constructor. exact IH.
  - constructor. exact IH.
  - constructor. exact IH.
Qed.

(** Descend through the body of a [try] to its normal results. *)
Ltac through_try :=
  repeat first
    [ progress (cbv beta zeta)
    | apply every_mbind; intros ?
    | apply every_ret_ok
    | match goal with
      | |- every _ (if ?b then _ else _) => destruct b
      | |- every _ (match ?x with (_, _) => _ end) => destruct x
      end ].

(** ** The response envelope *)

Lemma answer_500_envelope (rt : route) (label m : string) :
  match rt with Health | ApiStatus => False | _ => True end ->
  every (envelope rt) (answer_500 label m).
Proof.
  intros H. unfold answer_500. to_leaf.
  destruct rt; try contradiction; envelope_leaf.
Qed.

(** C1 (as amended).  Every response of a route handler, whatever the
    collaborators do, has the shape [envelope]: the two liveness routes
    answer 200 with a timestamp and no envelope fields; every other route
    answers with [success] a boolean and exactly one of [data] (when
    [success] is true, status 200) and [error] (when it is false, status 400
    or 500) populated; a success response carries a timestamp, at the top
    of the body or, for POST /api/ai/query, inside [data] only; a 400
    response carries none. *)
Theorem response_envelope
    (cfg : config) {W} (env : collaborators W) (w : W) (rt : route) (req : request) :
  envelope rt (result (run env (handler cfg rt req) w)).
Proof.
  apply every_run.
  destruct rt; unfold handler.
  - unfold health. to_leaf. envelope_leaf.
  - unfold api_status. do 2 (apply every_pbind; intros ?). to_leaf. envelope_leaf.
  - apply every_handler_try; [through_try; envelope_leaf |].
    intros m. to_leaf. envelope_leaf.
  - apply every_handler_try; [through_try; envelope_leaf |].
    intros m. apply answer_500_envelope. exact I.
  - apply every_handler_try; [through_try; envelope_leaf |].
    intros m. apply answer_500_envelope. exact I.
  - apply every_handler_try; [through_try; envelope_leaf |].
    intros m. apply answer_500_envelope. exact I.
  - apply every_handler_try; [through_try; envelope_leaf |].
    intros m. apply answer_500_envelope. exact I.
  - apply every_handler_try; [through_try; envelope_leaf |].
    intros m. apply answer_500_envelope. exact I.
  - apply every_handler_try; [through_try; envelope_leaf |].
    intros m. apply answer_500_envelope. exact I.
  - apply every_handler_try; [through_try; envelope_leaf |].
    intros m. apply answer_500_envelope. exact I.
  - apply every_handler_try; [through_try; envelope_leaf |].
    intros m. apply answer_500_envelope. exact I.
  - apply every_handler_try; [through_try; envelope_leaf |].
    intros m. apply answer_500_envelope. exact I.
Qed.

(** C1, refuted as stated: the 400 answer of POST /api/ai/query to a body
    without [query] has no [timestamp] field. *)
Lemma validation_answer_without_timestamp :
  let req := Request "POST" "/api/ai/query" (VObj []) (VObj []) in
  let r := result (run Store.env (app (CONFIG (fun _ => None)) req)
                     (Store.healthy [] [])) in
  status r = 400 /\
  Js.get "success" (body r) = VBool false /\
  Js.get "timestamp" (body r) = VUndefined.
Proof. vm_compute. repeat split. Qed.

(** ** GET /api/real-estate/overview *)

(** C7.  Whatever the two count calls do, the overview answers 200 with a
    success envelope; each total is the count the store returned, or 0 when
    that count failed, independently of the other; the placeholder metrics
    are the fixed literals. *)
Theorem overview_survives_count_failures
    (cfg : config) {W} (env : collaborators W) (w : W) (req : request) :
  let '(properties, w1) := respond env (FirestoreCount "properties") w in
  let '(memories, w2) := respond env (FirestoreCount "memory") w1 in
  let r := result (run env (real_estate_overview cfg req) w) in
  status r = 200 /\
  Js.get "success" (body r) = VBool true /\
  Js.get "error" (body r) = VUndefined /\
  exists data,
    Js.get "data" (body r) = VObj data /\
    Js.get "totalProperties" data = count_value properties /\
    Js.get "totalMemories" data = count_value memories /\
    Js.get "activeLeads" data = int 342 /\
    Js.get "hotDeals" data = int 23 /\
    Js.get "marketScore" data = VNum (NDec "8.5").
Proof.
  unfold real_estate_overview, handler_try, count_or_zero. cbn.
  destruct (respond env (FirestoreCount "properties") w) as [[n|m] w1]; cbn.
  all: destruct (respond env (FirestoreCount "memory") w1) as [[n'|m'] w2]; cbn.
  all: repeat next_reply.
  all: repeat split; eexists; repeat split.
Qed.

(** ** The error-handling middleware *)

(** C6 (as amended).  The fallback answers 500 with [success: false] and
    the fixed error text; the message of the underlying error is included
    exactly when the environment label is ["development"], and left out
    for every other label. *)
Theorem error_handler_envelope
    (cfg : config) {W} (env : collaborators W) (w : W) (err : string)
    (req : request) :
  let r := result (run env (error_handler cfg err req) w) in
  status r = 500 /\
  Js.get "success" (body r) = VBool false /\
  Js.get "error" (body r) = VStr "Internal server error" /\
  Js.get "data" (body r) = VUndefined /\
  present "timestamp" (body r) /\
  Js.get "message" (body r) =
    (if String.eqb (nodeEnv cfg) "development" then VStr err else VUndefined).
Proof.
  unfold error_handler. cbn. next_reply. unfold present. cbn.
  repeat split; discriminate.
Qed.

(** C6, refuted as stated: with the label ["staging"], which is not
    production, the message of the error is left out. *)
Lemma staging_hides_error_message :
  let cfg := CONFIG (fun name =>
    if String.eqb name "NODE_ENV" then Some "staging" else None) in
  let req := Request "POST" "/api/memory/store" VUndefined (VObj []) in
  let r := result (run Store.env (error_handler cfg "Unexpected token" req)
                     (Store.healthy [] [])) in
  nodeEnv cfg = "staging" /\
  status r = 500 /\
  Js.get "message" (body r) = VUndefined.
Proof. vm_compute. repeat split. Qed.

(** ** Validation *)

Lemma destructure_parsed (first what : string) (v : value) :
  parsed v -> Js.destructure first what v = Ok (Js.own_props v).
Proof. intros [H1 H2]. destruct v; try reflexivity; contradiction. Qed.

Lemma truthy_field_parsed (k : string) (v : value) :
  Js.truthy (Js.get k (Js.own_props v)) = true -> parsed v.
Proof. intros H. split; intros ->; discriminate. Qed.

Lemma missing_lacks (k : string) (v : value) :
  Js.get k (Js.own_props v) = VUndefined -> lacks k v.
Proof. unfold lacks. intros ->. reflexivity. Qed.

(** C8.  On a parsed body that lacks a required field (a missing field in
    particular), each of the three validating routes answers 400 before
    anything else happens: the run issues no collaborator call, writes no
    log line and leaves the collaborators' state as it was. *)
Theorem validation_precedes_collaborators
    (cfg : config) {W} (env : collaborators W) (w : W) (req : request) :
  parsed (req_body req) ->
  (lacks "query" (req_body req) ->
     rejected w "Query parameter required" (run env (ai_query req) w)) /\
  (lacks "type" (req_body req) \/ lacks "content" (req_body req) ->
     rejected w "Type and content required" (run env (memory_store req) w)) /\
  (lacks "fileName" (req_body req) \/ lacks "content" (req_body req) ->
     rejected w "fileName and content required"
       (run env (storage_upload cfg req) w)).
Proof.
  intros Hb. unfold lacks, rejected.
  unfold ai_query, memory_store, storage_upload, handler_try. cbn.
  rewrite !(destructure_parsed _ _ _ Hb). cbn.
  repeat split.
  all: match goal with
       | H : _ \/ _ |- _ => destruct H as [H|H]; rewrite H
       | H : _ = false |- _ => rewrite H
       end; cbn; rewrite ?orb_true_r; reflexivity.
Qed.

Lemma validation_precedes_collaborators_witness :
  let req := Request "POST" "/api/memory/store"
               (VObj [("type", VStr "note")]) (VObj []) in
  rejected (Store.healthy [] []) "Type and content required"
    (run Store.env (memory_store req) (Store.healthy [] [])).
Proof.
  intros req.
  apply (validation_precedes_collaborators (CONFIG (fun _ => None)) Store.env
           (Store.healthy [] []) req).
  - split; discriminate.
  - right. reflexivity.
Defined.

(** ** POST /api/ai/query without memory *)

(** C4.  With [useMemory: false] the run never fetches from the document
    store, whatever the collaborators do, and the only prompt handed to
    the generative model is the raw [query] value; when [query] is lacking
    the request is rejected and no prompt is issued at all. *)
Theorem no_memory_no_context
    {W} (env : collaborators W) (w : W) (req : request) :
  Js.get "useMemory" (Js.own_props (req_body req)) = VBool false ->
  let query := Js.get "query" (Js.own_props (req_body req)) in
  let cs := calls (trace (run env (ai_query req) w)) in
  List.filter is_fetch cs = [] /\
  prompts cs = if Js.truthy query then [query] else [].
Proof.
  intros Hm query cs. subst query cs.
  assert (Hb : parsed (req_body req)).
  { split; intros E; rewrite E in Hm; discriminate. }
  unfold ai_query, handler_try. cbn.
  rewrite (destructure_parsed _ _ _ Hb). cbn.
  destruct (Js.truthy (Js.get "query" (Js.own_props (req_body req)))); cbn;
    [|split; reflexivity].
  assert (Hd : Js.get_default "useMemory" (VBool true)
                 (Js.own_props (req_body req)) = VBool false).
  { unfold Js.get_default. rewrite Hm. reflexivity. }
  rewrite Hd. cbn.
  repeat next_reply; split; reflexivity.
Qed.

Lemma no_memory_no_context_witness :
  let req := Request "POST" "/api/ai/query"
               (VObj [("query", VStr "median price in Austin?");
                      ("useMemory", VBool false)]) (VObj []) in
  let cs := calls (trace (run Store.env (ai_query req) (Store.healthy [] []))) in
  List.filter is_fetch cs = [] /\
  prompts cs = [VStr "median price in Austin?"].
Proof.
  intros req.
  apply (no_memory_no_context Store.env (Store.healthy [] []) req).
  reflexivity.
Defined.

(** ** POST /api/memory/store *)

(** C2 (as amended).  On a body whose [type] and [content] are both
    truthy, the handler issues exactly one collaborator call: the insert
    into [memory] of the record made of the caller's [type], [content],
    [tags] (default [[]]) and [metadata] (default [{}]), the server
    timestamp, relevance score 1 and access count 0.  When the insert
    resolves to an id, the answer is a 200 success whose [data] holds that
    id and the same [type], [content], [tags], [metadata] and relevance
    score 1; when it rejects, the answer is a 500 with the error message.
    The reference store settles the insert with a non-empty id and keeps
    the record with the sentinel replaced by its own time. *)
Theorem memory_store_creates_record
    {W} (env : collaborators W) (w : W) (req : request) :
  let b := Js.own_props (req_body req) in
  let type := Js.get "type" b in
  let content := Js.get "content" b in
  let tags := Js.get_default "tags" (VArr []) b in
  let metadata := Js.get_default "metadata" (VObj []) b in
  let entry := memoryEntry type content tags metadata in
  Js.truthy type = true ->
  Js.truthy content = true ->
  let x := run env (memory_store req) w in
  calls (trace x) = [FirestoreAdd "memory" entry] /\
  Js.get "timestamp" entry = VServerTimestamp /\
  Js.get "relevanceScore" entry = int 1 /\
  Js.get "accessCount" entry = int 0 /\
  match fst (respond env (FirestoreAdd "memory" entry) w) with
  | Ok id =>
      status (result x) = 200 /\
      Js.get "success" (body (result x)) = VBool true /\
      exists data,
        Js.get "data" (body (result x)) = VObj data /\
        Js.get "id" data = VStr id /\
        Js.get "type" data = type /\
        Js.get "content" data = content /\
        Js.get "tags" data = tags /\
        Js.get "metadata" data = metadata /\
        Js.get "relevanceScore" data = int 1
  | Throw message =>
      status (result x) = 500 /\
      Js.get "success" (body (result x)) = VBool false /\
      Js.get "error" (body (result x)) = VStr message
  end /\
  forall sw : Store.world,
    let '(o, sw1) := Store.settle (FirestoreAdd "memory" entry) sw in
    exists id,
      o = Ok id /\ id <> "" /\
      Store.documents "memory" sw1 =
        (Store.documents "memory" sw
           ++ [Doc id (Store.resolve (Store.clock sw) entry)])%list /\
      Js.get "timestamp" (Store.resolve (Store.clock sw) entry)
        = VTimestamp (Store.clock sw).
Proof.
  intros b type content tags metadata entry Ht Hc x.
  pose proof (truthy_field_parsed _ _ Ht) as Hb.
  subst x. unfold memory_store, handler_try. cbn.
  rewrite (destructure_parsed _ _ _ Hb). cbn.
  fold b. fold type content tags metadata.
  rewrite Ht, Hc. cbn. fold entry.
  destruct (respond env (FirestoreAdd "memory" entry) w) as [[id|m] w1]; cbn.
  - next_reply. repeat split.
    + eexists. repeat split.
    + intros sw. eexists. repeat split; [discriminate|].
      unfold Store.documents. cbn. rewrite lookup_insert_eq. reflexivity.
  - repeat split.
    intros sw. eexists. repeat split; [discriminate|].
    unfold Store.documents. cbn. rewrite lookup_insert_eq. reflexivity.
Qed.

Lemma memory_store_creates_record_witness :
  let req := Request "POST" "/api/memory/store"
               (VObj [("type", VStr "note");
                      ("content", VStr "3 bed, 2 bath on Elm St");
                      ("tags", VArr [VStr "listing"])]) (VObj []) in
  calls (trace (run Store.env (memory_store req) (Store.healthy [] [])))
  = [FirestoreAdd "memory"
       (memoryEntry (VStr "note") (VStr "3 bed, 2 bath on Elm St")
          (VArr [VStr "listing"]) (VObj []))].
Proof.
  intros req.
  apply (memory_store_creates_record Store.env (Store.healthy [] []) req).
  - reflexivity.
  - reflexivity.
Defined.

(** C2, refuted as stated: a body in which both fields are set, [content]
    to the number 0, is answered 400 and nothing is inserted. *)
Lemma memory_store_rejects_zero_content :
  let req := Request "POST" "/api/memory/store"
               (VObj [("type", VStr "note"); ("content", int 0)]) (VObj []) in
  let x := run Store.env (app (CONFIG (fun _ => None)) req) (Store.healthy [] []) in
  Js.get "type" (Js.own_props (req_body req)) = VStr "note" /\
  Js.get "content" (Js.own_props (req_body req)) = int 0 /\
  status (result x) = 400 /\
  Js.get "data" (body (result x)) = VUndefined /\
  calls (trace x) = [] /\
  Store.documents "memory" (final x) = [].
Proof. vm_compute. repeat split. Qed.

(** ** POST /api/firestore/properties *)

Lemma get_resolve (t : Z) (k : string) (o : fields) :
  Js.get k (Store.resolve t o) = Store.resolved t (Js.get k o).
Proof.
  unfold Js.get, Store.resolve.
  enough (H : forall u,
    fold_left (fun found kv => if String.eqb k (fst kv) then snd kv else found)
      (map (fun kv => (fst kv, Store.resolved t (snd kv))) o) (Store.resolved t u)
    = Store.resolved t
        (fold_left (fun found kv => if String.eqb k (fst kv) then snd kv else found)
           o u)) by exact (H VUndefined).
  induction o as [|[k' v'] o IH]; intros u; simpl; [reflexivity|].
  destruct (String.eqb k k'); apply IH.
Qed.

Lemma get_propertyData (k : string) (reqBody : value) :
  Js.get k (propertyData reqBody) =
    if server_stamped k then VServerTimestamp
    else Js.get k (Js.own_props reqBody).
Proof.
  unfold propertyData, Js.assign, server_stamped. rewrite get_app.
  unfold Js.has_own, Js.get at 1. simpl.
  destruct (String.eqb k "timestamp"), (String.eqb k "updatedAt"); reflexivity.
Qed.

Lemma has_own_app (k : string) (o1 o2 : fields) :
  Js.has_own k (o1 ++ o2)%list = Js.has_own k o1 || Js.has_own k o2.
Proof. unfold Js.has_own. apply existsb_app. Qed.

Lemma has_own_propertyData (k : string) (reqBody : value) :
  Js.has_own k (propertyData reqBody) =
    Js.has_own k (Js.own_props reqBody) || server_stamped k.
Proof.
  unfold propertyData, Js.assign, server_stamped. rewrite has_own_app.
  cbn. rewrite orb_false_r. reflexivity.
Qed.

(** C9 (as amended).  For every request body, whatever the collaborators
    do, the only call is the insert into [properties] of a record in which
    [timestamp] and [updatedAt] are the server-timestamp sentinel, whatever
    the caller supplied for them, every other field of the body has the
    caller's value, and there is no further field.  The fields of an
    object body are its properties; those of any other body are its own
    enumerable properties, as spread sees them.  On the reference store:
    when the insert is accepted, the answer is 200 and the collection has
    one more record, with both fields set to the store's time and the
    others as given; when it is rejected, the answer is a 500 with the
    error message and the collection is as before. *)
Theorem properties_create_frame
    {W} (env : collaborators W) (w : W) (sw : Store.world) (req : request) :
  let data := propertyData (req_body req) in
  let y := run Store.env (properties_create req) sw in
  calls (trace (run env (properties_create req) w))
    = [FirestoreAdd "properties" data] /\
  (forall given,
     req_body req = VObj given ->
     forall k,
       Js.get k data =
         if server_stamped k then VServerTimestamp else Js.get k given) /\
  (forall k,
     Js.get k data =
       if server_stamped k then VServerTimestamp
       else Js.get k (Js.own_props (req_body req))) /\
  (forall k,
     Js.has_own k data =
       Js.has_own k (Js.own_props (req_body req)) || server_stamped k) /\
  match Store.fault sw (FirestoreAdd "properties" data) with
  | None =>
      status (result y) = 200 /\
      exists id stored,
        Store.documents "properties" (final y) =
          (Store.documents "properties" sw ++ [Doc id stored])%list /\
        forall k,
          Js.get k stored =
            if server_stamped k then VTimestamp (Store.clock sw)
            else Store.resolved (Store.clock sw)
                   (Js.get k (Js.own_props (req_body req)))
  | Some message =>
      status (result y) = 500 /\
      Js.get "error" (body (result y)) = VStr message /\
      Store.documents "properties" (final y) = Store.documents "properties" sw
  end.
Proof.
  intros data y. split; [|split; [|split; [|split]]].
  - unfold properties_create, handler_try. cbn. fold data.
    repeat next_reply; reflexivity.
  - intros given E k. unfold data. rewrite get_propertyData, E. reflexivity.
  - intros k. apply get_propertyData.
  - intros k. apply has_own_propertyData.
  - subst y. unfold properties_create, handler_try. cbn. fold data.
    unfold Store.respond.
    destruct (Store.fault sw (FirestoreAdd "properties" data)) as [m|]; cbn.
    + repeat split.
    + split; [reflexivity|]. eexists _, _. split.
      * unfold Store.documents. cbn. rewrite lookup_insert_eq. reflexivity.
      * intros k. rewrite get_resolve. unfold data. rewrite get_propertyData.
        destruct (server_stamped k); reflexivity.
Qed.

Lemma properties_create_frame_witness :
  let req := create_property [("address", VStr "12 Oak Ave");
                              ("city", VStr "Austin");
                              ("price", int 450000);
                              ("timestamp", VStr "1999-12-31")] in
  let data := propertyData (req_body req) in
  let y := run Store.env (properties_create req) property_store in
  calls (trace y) = [FirestoreAdd "properties" data] /\
  Js.get "address" data = VStr "12 Oak Ave" /\
  Js.get "price" data = int 450000 /\
  Js.get "timestamp" data = VServerTimestamp /\
  Js.get "updatedAt" data = VServerTimestamp /\
  Js.has_own "id" data = false /\
  status (result y) = 200 /\
  exists id stored,
    Store.documents "properties" (final y) =
      [austin_listing; dallas_listing; Doc id stored] /\
    Js.get "address" stored = VStr "12 Oak Ave" /\
    Js.get "city" stored = VStr "Austin" /\
    Js.get "price" stored = int 450000 /\
    Js.get "timestamp" stored = VTimestamp 1000 /\
    Js.get "updatedAt" stored = VTimestamp 1000.
Proof.
  intros req data y.
  destruct (properties_create_frame Store.env property_store property_store req)
    as (Hcalls & Hgiven & _ & Hown & Hstore).
  cbn in Hstore. destruct Hstore as (Hstatus & id & stored & Hdocs & Hstored).
  split; [exact Hcalls|].
  split; [apply (Hgiven _ eq_refl "address")|].
  split; [apply (Hgiven _ eq_refl "price")|].
  split; [apply (Hgiven _ eq_refl "timestamp")|].
  split; [apply (Hgiven _ eq_refl "updatedAt")|].
  split; [apply (Hown "id")|].
  split; [exact Hstatus|].
  exists id, stored.
  split; [exact Hdocs|].
  split; [apply (Hstored "address")|].
  split; [apply (Hstored "city")|].
  split; [apply (Hstored "price")|].
  split; [apply (Hstored "timestamp") | apply (Hstored "updatedAt")].
Defined.

(** C9, refuted as stated: when the store rejects the insert, the fields
    the caller supplied are not stored at all; the answer is a 500. *)
Lemma rejected_insert_stores_nothing :
  let req := create_property [("address", VStr "12 Oak Ave");
                              ("city", VStr "Austin")] in
  let y := run Store.env (app (CONFIG (fun _ => None)) req) read_only_store in
  calls (trace y) = [FirestoreAdd "properties" (propertyData (req_body req))] /\
  status (result y) = 500 /\
  Js.get "success" (body (result y)) = VBool false /\
  Js.get "error" (body (result y)) = VStr "PERMISSION_DENIED" /\
  Store.documents "properties" (final y) = [].
Proof. vm_compute. repeat split. Qed.

(** ** The reference store's queries *)

#[local] Instance descending_total field : Total (Store.descending field).
Proof. intros a b. unfold Store.descending. lia. Qed.

#[local] Instance descending_trans field : Transitive (Store.descending field).
Proof. intros a b c. unfold Store.descending. lia. Qed.

Lemma Forall_filter_true {A} (f : A -> bool) (l : list A) :
  Forall (fun x => f x = true) (List.filter f l).
Proof.
  induction l as [|x l IH]; simpl; [constructor|].
  destruct (f x) eqn:E; [constructor; assumption | assumption].
Qed.

Lemma Forall_filter_keeps {A} (P : A -> Prop) (f : A -> bool) (l : list A) :
  Forall P l -> Forall P (List.filter f l).
Proof.
  induction 1 as [|x l Hx Hl IH]; simpl; [constructor|].
  destruct (f x); [constructor; assumption | assumption].
Qed.

Lemma order_by_keeps (P : doc -> Prop) (o : option (string * string))
    (docs : list doc) :
  Forall P docs -> Forall P (Store.order_by o docs).
Proof.
  intros H. unfold Store.order_by. destruct o as [[field direction]|]; [|exact H].
  destruct (String.eqb direction "desc");
    rewrite merge_sort_Permutation; apply Forall_filter_keeps, H.
Qed.

Lemma eval_query_keeps (P : doc -> Prop) (q : query) (n : Z) (docs : list doc) :
  Forall P docs -> Forall P (Store.eval_query q n docs).
Proof.
  intros H. unfold Store.eval_query.
  apply Forall_take, order_by_keeps, Forall_filter_keeps, H.
Qed.

Lemma eval_query_matches (q : query) (n : Z) (docs : list doc) :
  Forall (fun d => forallb (fun f => Store.matches f d) (q_where q) = true)
    (Store.eval_query q n docs).
Proof.
  unfold Store.eval_query.
  apply Forall_take, order_by_keeps, Forall_filter_true.
Qed.

Lemma eval_query_length (q : query) (n : Z) (docs : list doc) :
  (length (Store.eval_query q n docs) <= Z.to_nat n)%nat.
Proof. unfold Store.eval_query. rewrite length_take. lia. Qed.

Lemma order_key_timestamped (d : doc) :
  bool_decide (is_Some (Store.order_key "timestamp" d)) = true -> timestamped d.
Proof.
  intros H. apply bool_decide_eq_true in H. destruct H as [t H].
  unfold Store.order_key in H. unfold timestamped.
  destruct (Js.get "timestamp" (doc_data d)); try discriminate. eauto.
Qed.

Lemma eval_query_newest_first (wheres : list filter) (n k : Z) (docs : list doc) :
  newest_first
    (Store.eval_query (Query wheres (Some ("timestamp", "desc")) (Some k)) n docs).
Proof.
  unfold Store.eval_query, Store.order_by. cbn. split.
  - apply Forall_take. rewrite merge_sort_Permutation.
    eapply Forall_impl; [apply Forall_filter_true|].
    intros d. apply order_key_timestamped.
  - match goal with
    | |- StronglySorted ?R (take ?i ?l) =>
        apply (StronglySorted_app_1_l R (take i l) (drop i l));
        rewrite take_drop; apply StronglySorted_merge_sort; apply _
    end.
Qed.

Lemma filter_all {A} (f : A -> bool) (l : list A) :
  Forall (fun x => f x = true) l -> List.filter f l = l.
Proof.
  induction 1 as [|x l Hx Hl IH]; simpl; [reflexivity|].
  rewrite Hx, IH. reflexivity.
Qed.

Lemma timestamped_order_key (d : doc) :
  timestamped d ->
  bool_decide (is_Some (Store.order_key "timestamp" d)) = true.
Proof.
  intros [t H]. apply bool_decide_eq_true. unfold Store.order_key.
  rewrite H. eauto.
Qed.

Lemma recent_memories_length (docs : list doc) :
  Forall timestamped docs ->
  length (Store.eval_query recent_memories 5 docs) = Nat.min 5 (length docs).
Proof.
  intros H. unfold Store.eval_query, recent_memories, Store.order_by. cbn.
  rewrite length_take, merge_sort_Permutation.
  rewrite (filter_all (fun _ => true)) by (apply Forall_forall; reflexivity).
  rewrite filter_all; [reflexivity|].
  eapply Forall_impl; [exact H|]. intros d. apply timestamped_order_key.
Qed.

(** ** GET /api/memory/search *)

Lemma doc_object_field (k : string) (d : doc) :
  Js.get k (doc_data d) <> VUndefined ->
  Js.get k (Js.own_props (doc_object d)) = Js.get k (doc_data d).
Proof.
  intros H. unfold doc_object, Js.assign. cbn [Js.own_props].
  rewrite get_app. destruct (Js.has_own k (doc_data d)) eqn:E; [reflexivity|].
  apply get_missing in E. contradiction.
Qed.

Lemma memory_search_run {W} (env : collaborators W) (w : W) (req : request)
    (n : option Z) :
  let q := Js.own_props (req_query req) in
  let issued := Query (memory_filters (Js.get "type" q) (Js.get "tags" q))
                  (Some ("timestamp", "desc")) n in
  parsed (req_query req) ->
  Js.parseInt (Js.get_default "limit" (int 10) q) = Ok n ->
  let x := run env (memory_search req) w in
  calls (trace x) = [FirestoreGet "memory" issued] /\
  search_answer "memories"
    (fst (respond env (FirestoreGet "memory" issued) w)) (result x).
Proof.
  intros q issued Hq Hn x. subst x.
  unfold memory_search, handler_try. cbn.
  rewrite (destructure_parsed _ _ _ Hq). cbn. fold q. rewrite Hn. cbn.
  fold issued.
  destruct (respond env (FirestoreGet "memory" issued) w) as [[docs|m] w1]; cbn.
  - next_reply. repeat split. eexists. repeat split.
    unfold Js.get, len. cbn. rewrite length_map. reflexivity.
  - repeat split.
Qed.

(** C5 (as amended).  For a request whose [type] parameter is a non-empty
    string [X] and whose [limit] is the numeral of [N], an integer up to
    2^53 - 1 (beyond, [parseInt] rounds), the handler issues one query on
    [memory]: an equality filter on [type], an array-membership
    filter on [tags] when that parameter is truthy, descending order by
    timestamp, limit [N].  It answers 200 with the records the store
    replies, or 500 with the store's error.  The records the reference
    store settles that query with are at most [N], each has [type] equal to
    [X] (in the document and in the object returned for it), and they come
    newest first. *)
Theorem memory_search_by_type
    {W} (env : collaborators W) (w : W) (sw : Store.world) (req : request)
    (X : string) (N : nat) :
  let q := Js.own_props (req_query req) in
  let tags := Js.get "tags" q in
  let issued :=
    Query (WhereEq "type" (VStr X)
             :: (if Js.truthy tags then [WhereArrayContains "tags" tags] else []))
      (Some ("timestamp", "desc")) (Some (Z.of_nat N)) in
  Js.get "type" q = VStr X ->
  X <> "" ->
  Js.get "limit" q = VStr (decimal N) ->
  Z.of_nat N <= Js.MAX_SAFE_INTEGER ->
  let x := run env (memory_search req) w in
  calls (trace x) = [FirestoreGet "memory" issued] /\
  search_answer "memories"
    (fst (respond env (FirestoreGet "memory" issued) w)) (result x) /\
  exists docs,
    fst (Store.settle (FirestoreGet "memory" issued) sw) = Ok docs /\
    (length docs <= N)%nat /\
    Forall (fun d => Js.get "type" (doc_data d) = VStr X) docs /\
    Forall (fun m => Js.get "type" (Js.own_props m) = VStr X)
      (map doc_object docs) /\
    newest_first docs.
Proof.
  intros q tags issued Ht HX Hl Hsafe x.
  assert (Hq : parsed (req_query req)).
  { split; intros E; unfold q in Ht; rewrite E in Ht; discriminate. }
  assert (Hn : Js.parseInt (Js.get_default "limit" (int 10) q)
               = Ok (Some (Z.of_nat N))).
  { unfold Js.get_default. rewrite Hl. apply parseInt_decimal, Hsafe. }
  assert (Hf : memory_filters (Js.get "type" q) (Js.get "tags" q)
               = q_where issued).
  { unfold memory_filters. rewrite Ht. cbn.
    destruct (String.eqb X "") eqn:E; [apply String.eqb_eq in E; contradiction|].
    reflexivity. }
  pose proof (memory_search_run env w req _ Hq Hn) as H.
  cbn zeta in H. fold q in H. rewrite Hf in H.
  split; [apply H|]. split; [apply H|].
  cbn. destruct (Z.ltb_spec (Z.of_nat N) 0); [lia|]. cbn.
  eexists. split; [reflexivity|].
  assert (Hty : Forall (fun d => Js.get "type" (doc_data d) = VStr X)
            (Store.eval_query issued (Z.of_nat N) (Store.documents "memory" sw))).
  { eapply Forall_impl; [apply eval_query_matches|].
    intros d Hd. cbn in Hd. apply andb_true_iff in Hd as [Hd _].
    apply value_eqb_eq in Hd. exact Hd. }
  repeat split.
  - pose proof (eval_query_length issued (Z.of_nat N)
                  (Store.documents "memory" sw)). lia.
  - exact Hty.
  - apply Forall_fmap. eapply Forall_impl; [exact Hty|].
    intros d Hd. unfold compose.
    rewrite doc_object_field; rewrite Hd; [reflexivity|discriminate].
  - apply eval_query_newest_first.
  - apply eval_query_newest_first.
Qed.

Lemma memory_search_by_type_witness :
  let req := search [("type", VStr "note"); ("limit", VStr "2")] in
  calls (trace (run Store.env (memory_search req) sample_store))
  = [FirestoreGet "memory"
       (Query [WhereEq "type" (VStr "note")] (Some ("timestamp", "desc"))
          (Some 2))].
Proof.
  intros req.
  apply (memory_search_by_type Store.env sample_store sample_store req "note" 2).
  - reflexivity.
  - discriminate.
  - reflexivity.
  - discriminate.
Defined.

(** C5, refuted as stated: with [type=] (the empty string) and [limit=5]
    no equality filter is applied, and a record whose type is not the
    empty string is returned. *)
Lemma empty_type_is_not_filtered :
  let req := search [("type", VStr ""); ("limit", VStr "5")] in
  let x := run Store.env (app (CONFIG (fun _ => None)) req) sample_store in
  calls (trace x)
    = [FirestoreGet "memory" (Query [] (Some ("timestamp", "desc")) (Some 5))] /\
  status (result x) = 200 /\
  exists rest,
    Js.get "data" (body (result x))
      = VObj [("memories", VArr (doc_object zoning_memo :: rest));
              ("count", int 2)] /\
    Js.get "type" (Js.own_props (doc_object zoning_memo)) = VStr "memo".
Proof. vm_compute. repeat split. eexists. split; reflexivity. Qed.

Lemma memory_filters_membership (type tags : value) :
  List.filter is_membership (memory_filters type tags)
  = if Js.truthy tags then [WhereArrayContains "tags" tags] else [].
Proof.
  unfold memory_filters. destruct (Js.truthy type), (Js.truthy tags); reflexivity.
Qed.

Lemma memory_search_one_membership
    {W} (env : collaborators W) (w : W) (req : request) :
  Forall (fun c => (length (membership_filters c) <= 1)%nat)
    (calls (trace (run env (memory_search req) w))).
Proof.
  unfold memory_search, handler_try. cbn.
  destruct (Js.destructure "type" "req.query" (req_query req)) as [q|m]; cbn;
    [|constructor].
  destruct (Js.parseInt (Js.get_default "limit" (int 10) q)) as [n|m]; cbn;
    [|constructor].
  assert (H : (length (List.filter is_membership
                 (memory_filters (Js.get "type" q) (Js.get "tags" q))) <= 1)%nat).
  { rewrite memory_filters_membership. destruct (Js.truthy _); cbn; lia. }
  repeat next_reply; (constructor; [exact H | constructor]).
Qed.

Lemma matches_membership (field : string) (tag : value) (d : doc) :
  Store.matches (WhereArrayContains field tag) d = true ->
  exists items, Js.get field (doc_data d) = VArr items /\ In tag items.
Proof.
  cbn. destruct (Js.get field (doc_data d)); try discriminate.
  intros H. apply existsb_exists in H as [x [Hx E]].
  apply value_eqb_eq in E. subst x. eauto.
Qed.

(** C10 (as amended).  For a request whose [tags] parameter is a non-empty
    string [T], the query the handler issues carries exactly one
    array-membership filter, on [tags], whose value is the whole string
    [T] (after the equality filter on [type], if any); the answer relays
    the store's reply; the records the reference store settles that query
    with all have [T] itself among the elements of their [tags] array.
    For every request whatsoever, no query of the handler carries more
    than one membership filter. *)
Theorem memory_search_by_tag
    {W} (env : collaborators W) (w : W) (sw : Store.world) (req : request)
    (T : string) (n : option Z) :
  let q := Js.own_props (req_query req) in
  let type := Js.get "type" q in
  let issued :=
    Query ((if Js.truthy type then [WhereEq "type" type] else [])
             ++ [WhereArrayContains "tags" (VStr T)])
      (Some ("timestamp", "desc")) n in
  Js.get "tags" q = VStr T ->
  T <> "" ->
  Js.parseInt (Js.get_default "limit" (int 10) q) = Ok n ->
  let x := run env (memory_search req) w in
  calls (trace x) = [FirestoreGet "memory" issued] /\
  membership_filters (FirestoreGet "memory" issued)
    = [WhereArrayContains "tags" (VStr T)] /\
  search_answer "memories"
    (fst (respond env (FirestoreGet "memory" issued) w)) (result x) /\
  match fst (Store.settle (FirestoreGet "memory" issued) sw) with
  | Ok docs => Forall (tagged (VStr T)) docs
  | Throw _ => n = None \/ exists k, n = Some k /\ k < 0
  end /\
  forall (req' : request) (w' : W),
    Forall (fun c => (length (membership_filters c) <= 1)%nat)
      (calls (trace (run env (memory_search req') w'))).
Proof.
  intros q type issued Ht HT Hn x.
  assert (Hq : parsed (req_query req)).
  { split; intros E; unfold q in Ht; rewrite E in Ht; discriminate. }
  assert (Htr : Js.truthy (VStr T) = true).
  { cbn. destruct (String.eqb T "") eqn:E; [|reflexivity].
    apply String.eqb_eq in E. contradiction. }
  assert (Hf : memory_filters (Js.get "type" q) (Js.get "tags" q)
               = q_where issued).
  { unfold memory_filters. rewrite Ht, Htr. reflexivity. }
  pose proof (memory_search_run env w req _ Hq Hn) as H.
  cbn zeta in H. fold q in H. rewrite Hf in H.
  split; [apply H|]. split.
  { change (List.filter is_membership (q_where issued)
            = [WhereArrayContains "tags" (VStr T)]).
    rewrite <- Hf, memory_filters_membership, Ht, Htr. reflexivity. }
  split; [apply H|]. split; [|intros req' w'; apply memory_search_one_membership].
  cbn. destruct n as [k|]; [|left; reflexivity].
  destruct (Z.ltb_spec k 0); cbn; [right; eauto|].
  eapply Forall_impl; [apply eval_query_matches|].
  intros d Hd. cbn [q_where issued] in Hd.
  rewrite forallb_app in Hd. apply andb_true_iff in Hd as [_ Hd].
  cbn [forallb] in Hd. rewrite andb_true_r in Hd.
  apply matches_membership in Hd. exact Hd.
Qed.

Lemma memory_search_by_tag_witness :
  let req := search [("tags", VStr "zoning,austin")] in
  calls (trace (run Store.env (memory_search req) sample_store))
  = [FirestoreGet "memory"
       (Query [WhereArrayContains "tags" (VStr "zoning,austin")]
          (Some ("timestamp", "desc")) (Some 10))].
Proof.
  intros req.
  apply (memory_search_by_tag Store.env sample_store sample_store req
           "zoning,austin" (Some 10)).
  - reflexivity.
  - discriminate.
  - reflexivity.
Defined.

(** C10, refuted as stated: a request with the [tags] parameter present
    but empty applies no membership filter at all, and records whose
    [tags] array does not contain that string are returned. *)
Lemma empty_tags_is_not_filtered :
  let req := search [("tags", VStr "")] in
  let x := run Store.env (app (CONFIG (fun _ => None)) req) sample_store in
  Js.get "tags" (Js.own_props (req_query req)) = VStr "" /\
  calls (trace x)
    = [FirestoreGet "memory" (Query [] (Some ("timestamp", "desc")) (Some 10))] /\
  Js.get "data" (body (result x))
    = VObj [("memories", VArr [doc_object zoning_memo; doc_object elm_street]);
            ("count", int 2)] /\
  Js.get "tags" (doc_data zoning_memo) = VArr [VStr "zoning"; VStr "austin"].
Proof. vm_compute. repeat split. Qed.

(** ** POST /api/ai/query with memory *)

Lemma append_nonempty (a b c : string) : b <> "" -> a +:+ b +:+ c <> "".
Proof.
  intros Hb E. destruct a; simpl in E; [|discriminate].
  destruct b; [contradiction | discriminate].
Qed.

Lemma join_cons (sep : string) (x y : value) (rest : list value) :
  Js.join sep (x :: y :: rest) =
    obind (Js.item_string x) (fun s =>
    obind (Js.join sep (y :: rest)) (fun r => Ok (s +:+ sep +:+ r))).
Proof. reflexivity. Qed.

(** Two or more joined items always give a non-empty string. *)
Lemma join_two_nonempty (sep : string) (l : list value) (s : string) :
  sep <> "" -> (2 <= length l)%nat -> Js.join sep l = Ok s -> s <> "".
Proof.
  intros Hsep Hl. destruct l as [|x [|y rest]]; simpl in Hl; try lia.
  rewrite join_cons.
  destruct (Js.item_string x) as [sx|m]; cbn [obind]; [|discriminate].
  destruct (Js.join sep (y :: rest)) as [r|m]; cbn [obind]; [|discriminate].
  intros E. injection E as <-. apply append_nonempty, Hsep.
Qed.

Lemma ai_query_answer
    {W} (env : collaborators W) (w w1 w2 : W) (req : request)
    (docs : list doc) (p : value) (text : string) :
  let b := Js.own_props (req_body req) in
  let query := Js.get "query" b in
  let model := Js.get_default "model" (VStr "gemini-2.0-flash-exp") b in
  parsed (req_body req) ->
  Js.truthy query = true ->
  Js.truthy (Js.get_default "useMemory" (VBool true) b) = true ->
  respond env (FirestoreGet "memory" recent_memories) w = (Ok docs, w1) ->
  prompt_of (context_of docs) query = Ok p ->
  respond env (GenerateContent model p) w1 = (Ok text, w2) ->
  let r := result (run env (ai_query req) w) in
  status r = 200 /\
  Js.get "success" (body r) = VBool true /\
  exists data,
    Js.get "data" (body r) = VObj data /\
    Js.get "response" data = VStr text /\
    Js.get "contextUsed" data = VBool (negb (String.eqb (context_of docs) "")) /\
    Js.get "memoriesReferenced" data = len docs.
Proof.
  intros b query model Hb Hq Hm Hfetch Hp Hgen r. subst r.
  unfold ai_query, handler_try, fetch_context, try_catch. cbn.
  rewrite (destructure_parsed _ _ _ Hb). cbn. fold b. fold query model.
  rewrite Hq, Hm. cbn.
  change (Query [] (Some ("timestamp", "desc")) (Some 5)) with recent_memories.
  rewrite Hfetch. cbn.
  unfold prompt_of, context_of in Hp. unfold context_of.
  destruct (Js.join (nl +:+ nl)
              (map (fun m => Js.get "content" (Js.own_props m))
                 (map doc_object docs))) as [context|m]; cbn.
  - cbn in Hp. rewrite Hp. cbn. rewrite Hgen. cbn.
    repeat next_reply; repeat split; eexists; repeat split;
      unfold Js.get, len; cbn; rewrite length_map; reflexivity.
  - cbn in Hp. injection Hp as <-. rewrite Hgen. cbn.
    repeat next_reply; repeat split; eexists; repeat split;
      unfold Js.get, len; cbn; rewrite length_map; reflexivity.
Qed.

(** C3 (as amended).  Take a request with a truthy [query], a truthy
    [useMemory], a reference store whose memory records all carry a server
    timestamp, a memory fetch and a model invocation that do not fail.
    The answer is a 200 success whose [memoriesReferenced] is
    min(5, number of memory records), and whose [contextUsed] is true
    exactly when the contents of the fetched records join to a non-empty
    string.  That is the case whenever two or more records are fetched and
    their contents convert to strings; with a single record it depends on
    that record's content. *)
Theorem ai_query_with_memory (sw : Store.world) (req : request) (p : value) :
  let b := Js.own_props (req_body req) in
  let query := Js.get "query" b in
  let model := Js.get_default "model" (VStr "gemini-2.0-flash-exp") b in
  let stored := Store.documents "memory" sw in
  let fetched := Store.eval_query recent_memories 5 stored in
  Js.truthy query = true ->
  Js.truthy (Js.get_default "useMemory" (VBool true) b) = true ->
  Forall timestamped stored ->
  Store.fault sw (FirestoreGet "memory" recent_memories) = None ->
  prompt_of (context_of fetched) query = Ok p ->
  Store.fault sw (GenerateContent model p) = None ->
  let r := result (run Store.env (ai_query req) sw) in
  status r = 200 /\
  exists data,
    Js.get "data" (body r) = VObj data /\
    Js.get "memoriesReferenced" data = int (Z.of_nat (Nat.min 5 (length stored))) /\
    Js.get "contextUsed" data = VBool (negb (String.eqb (context_of fetched) "")) /\
    ((length stored <= 1)%nat \/
     (exists m, Js.join (nl +:+ nl)
                  (map (fun m => Js.get "content" (Js.own_props m))
                     (map doc_object fetched)) = Throw m) \/
     Js.get "contextUsed" data = VBool true).
Proof.
  intros b query model stored fetched Hq Hm Hts Hf1 Hp Hf2 r.
  pose proof (truthy_field_parsed _ _ Hq) as Hb.
  assert (Hfetch : respond Store.env (FirestoreGet "memory" recent_memories) sw
                   = (Ok fetched, sw)).
  { cbn. unfold Store.respond. rewrite Hf1. reflexivity. }
  assert (Hgen : respond Store.env (GenerateContent model p) sw
                 = (Ok (Store.generate sw model p), sw)).
  { cbn. unfold Store.respond. rewrite Hf2. reflexivity. }
  destruct (ai_query_answer Store.env sw sw sw req fetched p _
              Hb Hq Hm Hfetch Hp Hgen) as (Hs & _ & data & Hd & _ & Hc & Hn).
  split; [exact Hs|]. exists data. split; [exact Hd|]. split.
  { rewrite Hn. unfold len, fetched. rewrite recent_memories_length by exact Hts.
    reflexivity. }
  split; [exact Hc|].
  destruct (le_lt_dec (length stored) 1) as [Hle|Hgt]; [left; exact Hle|].
  right. unfold context_of in Hc.
  destruct (Js.join (nl +:+ nl)
              (map (fun m => Js.get "content" (Js.own_props m))
                 (map doc_object fetched))) as [s|m] eqn:E; [right|left; eauto].
  rewrite Hc. f_equal.
  assert (Hs2 : s <> "").
  { apply (join_two_nonempty (nl +:+ nl) _ s) in E; [exact E | |].
    - cbn. discriminate.
    - rewrite !length_map. unfold fetched.
      rewrite recent_memories_length by exact Hts. lia. }
  destruct (String.eqb s "") eqn:E2; [|reflexivity].
  apply String.eqb_eq in E2. contradiction.
Qed.

Lemma ai_query_with_memory_witness :
  let req := Request "POST" "/api/ai/query"
               (VObj [("query", VStr "What changed near the river?")]) (VObj []) in
  let r := result (run Store.env (ai_query req) sample_store) in
  status r = 200 /\
  exists data,
    Js.get "data" (body r) = VObj data /\
    Js.get "memoriesReferenced" data = int 2 /\
    Js.get "contextUsed" data = VBool true.
Proof.
  intros req.
  destruct (ai_query_with_memory sample_store req
              (VStr ("Context from memory:" +:+ nl
                     +:+ "Zoning change near the river" +:+ nl +:+ nl
                     +:+ "3 bed, 2 bath on Elm St" +:+ nl +:+ nl
                     +:+ "User query: What changed near the river?")))
    as (Hs & data & Hd & Hn & Hc & _).
  - reflexivity.
  - reflexivity.
  - repeat constructor; eexists; reflexivity.
  - reflexivity.
  - reflexivity.
  - reflexivity.
  - split; [exact Hs|]. exists data. repeat split; assumption.
Defined.

(** C3, refuted as stated: ask twice with [useMemory: true], starting from
    an empty store.  The second request fetches successfully the one prior
    memory record (the interaction the first request stored, which has no
    [content] field), and yet answers [contextUsed: false]. *)
Lemma single_interaction_gives_no_context :
  let req := Request "POST" "/api/ai/query"
               (VObj [("query", VStr "median price in Austin?");
                      ("useMemory", VBool true)]) (VObj []) in
  let cfg := CONFIG (fun _ => None) in
  let first := run Store.env (app cfg req) (Store.healthy [] []) in
  let second := run Store.env (app cfg req) (final first) in
  length (Store.documents "memory" (final first)) = 1%nat /\
  fst (Store.respond (FirestoreGet "memory" recent_memories) (final first))
    = Ok (Store.documents "memory" (final first)) /\
  status (result second) = 200 /\
  exists data,
    Js.get "data" (body (result second)) = VObj data /\
    Js.get "contextUsed" data = VBool false /\
    Js.get "memoriesReferenced" data = int 1.
Proof. vm_compute. repeat split. eexists. repeat split. Qed.

(** ** Every record the server writes is timestamped *)

Lemma issues_pbind {A B} (P : call -> Prop) (p : prog A) (k : A -> prog B) :
  issues P p -> (forall a, issues P (k a)) -> issues P (pbind p k).
Proof.
  intros Hp Hk. induction Hp as [a|c k' Hc _ IH|r k' _ IH|lv lb d p _ IH]; simpl.
  - apply Hk.
  - constructor; [exact Hc | exact IH].
  - constructor. exact IH.
  - constructor. exact IH.
Qed.

Lemma issues_run {A} (P : call -> Prop) (p : prog A) :
  issues P p ->
  forall {W} (env : collaborators W) (w : W),
    Forall P (calls (trace (run env p w))).
Proof.
  induction 1 as [a|c k Hc _ IH|r k _ IH|lv lb d p _ IH]; intros W env w; simpl.
  - constructor.
  - destruct (respond env c w) as [o w1]. specialize (IH o W env w1).
    destruct (run env (k o) w1) as [[a tr] w2]. constructor; assumption.
  - destruct (sys env r w) as [x w1]. apply IH.
  - specialize (IH W env w). destruct (run env p w) as [[a tr] w1]. exact IH.
Qed.

(** Descend through a program to its calls. *)
Ltac through_calls :=
  repeat first
    [ progress (cbv beta zeta)
    | apply issues_pbind; [| intros ?]
    | apply issues_call; [| intros ?]
    | apply issues_read; intros ?
    | apply issues_log
    | apply issues_ret
    | match goal with
      | |- issues _ (if ?b then _ else _) => destruct b
      | |- issues _ (match ?x with _ => _ end) => destruct x
      end ].

Lemma handlers_stamp_inserts (cfg : config) (rt : route) (req : request) :
  issues stamps_inserts (handler cfg rt req).
Proof.
  destruct rt; unfold handler.
  all: unfold health, api_status, probe, ai_query, memory_store, memory_search,
    storage_upload, storage_files, sheets_investor_data, drive_files,
    properties_list, properties_create, real_estate_overview, fetch_context,
    count_or_zero, answer_500, handler_try, try_catch, mbind, await, read,
    console, lift, ret.
  all: through_calls; try exact I; try reflexivity.
  unfold stamps_inserts. rewrite get_propertyData. reflexivity.
Qed.

Lemma documents_add (collection other : string) (data : fields)
    (sw : Store.world) :
  Store.documents other (snd (Store.add collection data sw)) =
    if decide (collection = other)
    then (Store.documents other sw
            ++ [Doc (Store.auto_id (Store.next_id sw))
                  (Store.resolve (Store.clock sw) data)])%list
    else Store.documents other sw.
Proof.
  unfold Store.documents. cbn. rewrite lookup_insert.
  destruct (decide (collection = other)) as [->|]; reflexivity.
Qed.

Lemma add_timestamped (collection : string) (data : fields) (sw : Store.world) :
  Js.get "timestamp" data = VServerTimestamp ->
  all_timestamped sw ->
  all_timestamped (snd (Store.add collection data sw)).
Proof.
  intros Hd Hsw other. rewrite documents_add.
  destruct (decide (collection = other)); [|apply Hsw].
  apply Forall_app. split; [apply Hsw|].
  constructor; [|constructor].
  exists (Store.clock sw). cbn [doc_data]. rewrite get_resolve, Hd. reflexivity.
Qed.

Lemma respond_timestamped (c : call) (sw : Store.world) :
  stamps_inserts c ->
  all_timestamped sw ->
  all_timestamped (snd (Store.respond c sw)).
Proof.
  intros Hc Hsw. unfold Store.respond.
  destruct (Store.fault sw c); [exact Hsw|].
  destruct c; cbn; try exact Hsw.
  - destruct (q_limit q) as [n|]; [|exact Hsw].
    destruct (n <? 0); exact Hsw.
  - apply (add_timestamped collection data sw Hc Hsw).
Qed.

Lemma run_timestamped {A} (p : prog A) :
  issues stamps_inserts p ->
  forall sw, all_timestamped sw -> all_timestamped (final (run Store.env p sw)).
Proof.
  induction 1 as [a|c k Hc _ IH|r k _ IH|lv lb d p _ IH]; intros sw Hsw; simpl.
  - exact Hsw.
  - pose proof (respond_timestamped c sw Hc Hsw) as H1.
    destruct (Store.respond c sw) as [o w1]. specialize (IH o w1 H1).
    destruct (run Store.env (k o) w1) as [[a tr] w2]. exact IH.
  - destruct r; apply IH; exact Hsw.
  - specialize (IH sw Hsw).
    destruct (run Store.env p sw) as [[a tr] w1]. exact IH.
Qed.

(** Serving a request keeps every stored document timestamped: the
    records the server writes are stamped by the store, so the ordered
    queries of the memory routes see all of them. *)
Theorem server_keeps_records_timestamped
    (cfg : config) (rt : route) (req : request) (sw : Store.world) :
  all_timestamped sw ->
  all_timestamped (final (run Store.env (handler cfg rt req) sw)).
Proof. apply run_timestamped, handlers_stamp_inserts. Qed.

(** ** Routing *)

Example routes_ignore_case_and_trailing_slash (cfg : config) :
  app cfg (Request "GET" "/Health/" VUndefined (VObj []))
  = health cfg (Request "GET" "/Health/" VUndefined (VObj [])).
Proof. reflexivity. Qed.

(* ===================================================================== *)
(** * Part 7: further properties of the handlers *)
(* ===================================================================== *)

(** ** How many calls a request causes *)

(** X1.  Whatever the collaborators do, a request causes at most as many
    collaborator calls as the budget of its route: none for the health
    route, two for the status and overview routes, three for the AI query
    and one for every other route; among them is at most one write, and no
    write at all on a route registered with GET. *)
Theorem request_call_budget
    (cfg : config) {W} (env : collaborators W) (w : W) (rt : route) (req : request) :
  let cs := calls (trace (run env (handler cfg rt req) w)) in
  (length cs <= call_budget rt)%nat /\
  (call_budget rt <= 3)%nat /\
  (length (List.filter is_write cs) <= if read_only rt then 0 else 1)%nat.
Proof.
  destruct rt; unfold handler.
  all: unfold health, api_status, probe, ai_query, memory_store, memory_search,
    storage_upload, storage_files, sheets_investor_data, drive_files,
    properties_list, properties_create, real_estate_overview, fetch_context,
    count_or_zero, answer_500, handler_try, try_catch.
  all: crack; cbn; lia.
Qed.

(** ** Which status codes a route answers with *)

(** X2.  Whatever the collaborators do and whatever the request holds:
    the liveness routes and the overview always answer 200; the three
    validating routes answer 200, 400 or 500; every other route answers 200
    or 500, never 400, however ill-formed its parameters are. *)
Theorem route_status_codes
    (cfg : config) {W} (env : collaborators W) (w : W) (rt : route) (req : request) :
  may_answer rt (status (result (run env (handler cfg rt req) w))).
Proof.
  destruct rt; unfold handler.
  all: unfold health, api_status, probe, ai_query, memory_store, memory_search,
    storage_upload, storage_files, sheets_investor_data, drive_files,
    properties_list, properties_create, real_estate_overview, fetch_context,
    count_or_zero, answer_500, handler_try, try_catch.
  all: crack; cbn; auto.
Qed.

(** ** GET /api/status *)

(** X3.  The status route always issues both probes, the storage probe
    also when the Firestore probe failed, and always answers 200; each
    probed component reads 'active' when its call resolved and 'error' when
    it rejected, independently of the other; no component is ever left at
    'checking'. *)
Theorem api_status_reports_probes
    (cfg : config) {W} (env : collaborators W) (w : W) (req : request) :
  let '(firestore, w1) := respond env health_check w in
  let '(storage, w2) := respond env BucketExists w1 in
  let x := run env (api_status cfg req) w in
  calls (trace x) = [health_check; BucketExists] /\
  status (result x) = 200 /\
  Js.get "status" (body (result x)) = VStr "operational" /\
  exists components,
    Js.get "components" (body (result x)) = VObj components /\
    Js.get "firestore" components = probe_text firestore /\
    Js.get "storage" components = probe_text storage /\
    Js.get "api" components = VStr "healthy" /\
    Js.get "vertexAI" components = VStr "active" /\
    Js.get "sheets" components = VStr "active" /\
    Js.get "drive" components = VStr "active" /\
    Forall (fun kv => snd kv <> VStr "checking") components.
Proof.
  unfold api_status, probe, handler_try, health_check. cbn.
  destruct (respond env (FirestoreGet "_health_check" (Query [] None (Some 1))) w)
    as [[docs|m] w1]; cbn.
  all: destruct (respond env BucketExists w1) as [[u|m'] w2]; cbn.
  all: repeat next_reply.
  all: repeat split; eexists; repeat split;
       repeat (constructor; [cbn; discriminate|]); constructor.
Qed.

(** ** POST /api/ai/query *)

Lemma destructure_cases (first what : string) (v : value) :
  (parsed v /\ Js.destructure first what v = Ok (Js.own_props v)) \/
  (Js.own_props v = [] /\ exists m, Js.destructure first what v = Throw m).
Proof.
  destruct v; cbn; try (left; split; [split; discriminate | reflexivity]);
    right; split; eauto.
Qed.

(** X4.  Memory is consulted exactly when the request has a truthy [query]
    and [useMemory] is absent or truthy: then exactly one fetch is issued,
    that of the five newest memory records, and otherwise ([useMemory]
    false, null, 0 or empty, or no [query]) no fetch is issued at all. *)
Theorem ai_query_consults_memory_by_default
    {W} (env : collaborators W) (w : W) (req : request) :
  let b := Js.own_props (req_body req) in
  let cs := calls (trace (run env (ai_query req) w)) in
  List.filter is_fetch cs =
    if Js.truthy (Js.get "query" b)
       && Js.truthy (Js.get_default "useMemory" (VBool true) b)
    then [FirestoreGet "memory" recent_memories]
    else [].
Proof.
  cbv zeta. unfold ai_query, handler_try, fetch_context, try_catch. cbn.
  destruct (destructure_cases "query" "req.body" (req_body req))
    as [[_ ->]|[-> [m ->]]]; cbn.
  - destruct (Js.truthy (Js.get "query" (Js.own_props (req_body req)))); cbn;
      [|reflexivity].
    destruct (Js.truthy (Js.get_default "useMemory" (VBool true)
                           (Js.own_props (req_body req)))); cbn.
    all: crack; reflexivity.
  - crack; reflexivity.
Qed.

(** X5.  The insert of the interaction is issued exactly when the request
    is answered 200: a 400 or 500 answer has issued no write, and a 200
    answer has issued exactly one, the insert into [memory] of a record of
    type 'interaction', with the server-timestamp sentinel, whose [query],
    [response], [model] and [contextUsed] are the ones of the answer. *)
Theorem ai_query_stores_what_it_answers
    {W} (env : collaborators W) (w : W) (req : request) :
  let x := run env (ai_query req) w in
  match List.filter is_write (calls (trace x)) with
  | [] => status (result x) = 400 \/ status (result x) = 500
  | [FirestoreAdd collection record] =>
      collection = "memory" /\
      status (result x) = 200 /\
      Js.get "type" record = VStr "interaction" /\
      Js.get "timestamp" record = VServerTimestamp /\
      exists data,
        Js.get "data" (body (result x)) = VObj data /\
        Js.get "query" record = Js.get "query" data /\
        Js.get "response" record = Js.get "response" data /\
        Js.get "model" record = Js.get "model" data /\
        Js.get "contextUsed" record = Js.get "contextUsed" data
  | _ => False
  end.
Proof.
  unfold ai_query, handler_try, fetch_context, try_catch.
  crack; cbn; auto; repeat split; eexists; repeat split.
Qed.

(** X6.  A failing memory fetch is not fatal: it is logged as a warning
    and the handler goes on to ask the model with the raw query as prompt.
    When the model answers, the response is a 200 with [contextUsed] false
    and [memoriesReferenced] 0; when it fails, a 500 with its message. *)
Theorem ai_query_survives_fetch_failure
    {W} (env : collaborators W) (w w1 : W) (req : request) (m : string) :
  let b := Js.own_props (req_body req) in
  let query := Js.get "query" b in
  let model := Js.get_default "model" (VStr "gemini-2.0-flash-exp") b in
  Js.truthy query = true ->
  Js.truthy (Js.get_default "useMemory" (VBool true) b) = true ->
  respond env (FirestoreGet "memory" recent_memories) w = (Throw m, w1) ->
  let x := run env (ai_query req) w in
  (exists rest,
     trace x = ECall (FirestoreGet "memory" recent_memories)
               :: ELog "warn" "Memory fetch failed:" m
               :: ECall (GenerateContent model query) :: rest) /\
  match fst (respond env (GenerateContent model query) w1) with
  | Ok text =>
      status (result x) = 200 /\
      exists data,
        Js.get "data" (body (result x)) = VObj data /\
        Js.get "response" data = VStr text /\
        Js.get "contextUsed" data = VBool false /\
        Js.get "memoriesReferenced" data = int 0
  | Throw e =>
      status (result x) = 500 /\
      Js.get "error" (body (result x)) = VStr e
  end.
Proof.
  intros b query model Hq Hm Hf x. subst x.
  pose proof (truthy_field_parsed _ _ Hq) as Hb.
  unfold ai_query, handler_try, fetch_context, try_catch. cbn.
  rewrite (destructure_parsed _ _ _ Hb). cbn. fold b. fold query model.
  rewrite Hq, Hm. cbn.
  change (Query [] (Some ("timestamp", "desc")) (Some 5)) with recent_memories.
  rewrite Hf. cbn.
  destruct (respond env (GenerateContent model query) w1) as [[text|e] w2]; cbn.
  - repeat next_reply; (split; [eexists; reflexivity|]);
      split; try reflexivity; eexists; repeat split.
  - next_reply. split; [eexists; reflexivity|]. split; reflexivity.
Qed.

Lemma ai_query_survives_fetch_failure_witness :
  let req := ask [("query", VStr "median price in Austin?")] in
  let x := run Store.env (ai_query req) unreadable_store in
  status (result x) = 200 /\
  exists data,
    Js.get "data" (body (result x)) = VObj data /\
    Js.get "response" data = VStr "generated text" /\
    Js.get "contextUsed" data = VBool false /\
    Js.get "memoriesReferenced" data = int 0.
Proof.
  intros req.
  apply (ai_query_survives_fetch_failure Store.env unreadable_store
           unreadable_store req "UNAVAILABLE").
  - reflexivity.
  - reflexivity.
  - reflexivity.
Defined.

(** X7.  A failing store of the interaction is swallowed: whenever the
    run has logged the warning 'Memory store failed:', the request is still
    answered 200 with a success envelope. *)
Theorem ai_query_swallows_store_failure
    {W} (env : collaborators W) (w : W) (req : request) (m : string) :
  let x := run env (ai_query req) w in
  In (ELog "warn" "Memory store failed:" m) (trace x) ->
  status (result x) = 200 /\
  Js.get "success" (body (result x)) = VBool true.
Proof.
  unfold ai_query, handler_try, fetch_context, try_catch.
  crack; cbn; intros H; repeat (destruct H as [H|H]; [try discriminate H|]);
    try contradiction; split; reflexivity.
Qed.

Lemma ai_query_swallows_store_failure_witness :
  let req := ask [("query", VStr "median price in Austin?")] in
  let x := run Store.env (ai_query req) read_only_store in
  status (result x) = 200 /\
  Js.get "success" (body (result x)) = VBool true.
Proof.
  intros req.
  apply (ai_query_swallows_store_failure Store.env read_only_store req
           "PERMISSION_DENIED").
  vm_compute. auto 10.
Defined.

(** ** POST /api/storage/upload *)

(** X8.  For a non-empty file name, a truthy content and a [metadata] that
    is not null, the handler issues exactly one call, the save of the
    content under that name.  The metadata saved holds every property the
    caller gave, with the caller's value, and a [contentType] of
    'application/json' only when the caller gave none: a caller's
    [contentType] stands even when it is empty or null.  The answer to a
    successful save is a 200 naming the file, the bucket and the locator
    gs://bucket/name; to a failed one, a 500 with its message. *)
Theorem storage_upload_saves_with_metadata
    (cfg : config) {W} (env : collaborators W) (w : W) (req : request)
    (name : string) :
  let b := Js.own_props (req_body req) in
  let content := Js.get "content" b in
  let metadata := Js.get_default "metadata" (VObj []) b in
  let given := Js.own_props metadata in
  Js.get "fileName" b = VStr name ->
  name <> "" ->
  Js.truthy content = true ->
  metadata <> VNull ->
  let x := run env (storage_upload cfg req) w in
  exists saved,
    calls (trace x) = [FileSave (VStr name) content saved] /\
    (forall k,
       Js.get k saved =
         if Js.has_own k given then Js.get k given
         else if String.eqb k "contentType" then VStr "application/json"
         else VUndefined) /\
    match fst (respond env (FileSave (VStr name) content saved) w) with
    | Ok _ =>
        status (result x) = 200 /\
        exists data,
          Js.get "data" (body (result x)) = VObj data /\
          Js.get "fileName" data = VStr name /\
          Js.get "bucket" data = VStr (bucket cfg) /\
          Js.get "url" data = VStr ("gs://" +:+ bucket cfg +:+ "/" +:+ name)
    | Throw m =>
        status (result x) = 500 /\
        Js.get "error" (body (result x)) = VStr m
    end.
Proof.
  intros b content metadata given Hn Hne Hc Hm x. subst x.
  assert (Hb : parsed (req_body req)).
  { split; intros E; unfold b in Hn; rewrite E in Hn; discriminate. }
  assert (Ht : Js.truthy (VStr name) = true).
  { cbn. destruct (String.eqb name "") eqn:E; [|reflexivity].
    apply String.eqb_eq in E. contradiction. }
  assert (Hmem : member metadata "contentType" = Ok (Js.get "contentType" given)).
  { unfold member. destruct metadata eqn:E; try reflexivity; try contradiction.
    exfalso. unfold metadata, Js.get_default in E.
    destruct (Js.get "metadata" b); discriminate. }
  unfold storage_upload, handler_try. cbn.
  rewrite (destructure_parsed _ _ _ Hb). cbn. fold b. rewrite Hn. fold content.
  rewrite Ht, Hc. cbn. fold metadata. rewrite Hmem. cbn. fold given.
  exists (Js.assign
            [("contentType",
              Js.or_else (Js.get "contentType" given) (VStr "application/json"))]
            given).
  split; [|split].
  - destruct (respond env _ w) as [[u|m] w1]; cbn; repeat next_reply; reflexivity.
  - intros k. unfold Js.assign. rewrite get_app.
    destruct (Js.has_own k given) eqn:E; [reflexivity|].
    unfold Js.get at 1. cbn.
    destruct (String.eqb k "contentType") eqn:Ek; [|reflexivity].
    apply String.eqb_eq in Ek. subst k.
    rewrite (get_missing _ _ E). reflexivity.
  - destruct (respond env _ w) as [[u|m] w1]; cbn.
    + next_reply. split; [reflexivity|]. eexists. repeat split.
    + split; reflexivity.
Qed.

Lemma storage_upload_saves_with_metadata_witness :
  let req := upload [("fileName", VStr "comps/austin.json");
                     ("content", VStr "{}");
                     ("metadata", VObj [("contentType", VStr "");
                                        ("owner", VStr "desk-3")])] in
  let x := run Store.env (storage_upload (CONFIG (fun _ => None)) req)
             sample_store in
  exists saved,
    calls (trace x) = [FileSave (VStr "comps/austin.json") (VStr "{}") saved] /\
    Js.get "contentType" saved = VStr "" /\
    Js.get "owner" saved = VStr "desk-3".
Proof.
  intros req.
  destruct (storage_upload_saves_with_metadata (CONFIG (fun _ => None))
              Store.env sample_store req "comps/austin.json")
    as (saved & Hc & Hk & _).
  - reflexivity.
  - discriminate.
  - reflexivity.
  - discriminate.
  - exists saved. split; [exact Hc|].
    split; [apply (Hk "contentType") | apply (Hk "owner")].
Defined.

(** X9.  With [metadata: null] the default does not apply (it replaces
    only a missing field): reading its [contentType] throws, the answer is
    a 500 carrying the TypeError's message, and nothing is saved. *)
Theorem storage_upload_null_metadata
    (cfg : config) {W} (env : collaborators W) (w : W) (req : request) :
  let b := Js.own_props (req_body req) in
  Js.truthy (Js.get "fileName" b) = true ->
  Js.truthy (Js.get "content" b) = true ->
  Js.get "metadata" b = VNull ->
  let x := run env (storage_upload cfg req) w in
  status (result x) = 500 /\
  Js.get "success" (body (result x)) = VBool false /\
  Js.get "error" (body (result x))
    = VStr "Cannot read properties of null (reading 'contentType')" /\
  calls (trace x) = [] /\
  final x = w.
Proof.
  intros b Hn Hc Hm x. subst x.
  pose proof (truthy_field_parsed _ _ Hn) as Hb.
  unfold storage_upload, handler_try. cbn.
  rewrite (destructure_parsed _ _ _ Hb). cbn. fold b.
  rewrite Hn, Hc. cbn. unfold Js.get_default. rewrite Hm. cbn.
  repeat split.
Qed.

Lemma storage_upload_null_metadata_witness :
  let req := upload [("fileName", VStr "comps/austin.json");
                     ("content", VStr "{}");
                     ("metadata", VNull)] in
  let x := run Store.env (storage_upload (CONFIG (fun _ => None)) req)
             sample_store in
  status (result x) = 500 /\
  Js.get "success" (body (result x)) = VBool false /\
  Js.get "error" (body (result x))
    = VStr "Cannot read properties of null (reading 'contentType')" /\
  calls (trace x) = [] /\
  final x = sample_store.
Proof.
  intros req.
  apply (storage_upload_null_metadata (CONFIG (fun _ => None)) Store.env
           sample_store req).
  - reflexivity.
  - reflexivity.
  - reflexivity.
Defined.

(** ** Listing routes *)

(** X10.  In every 200 answer of the four listing routes, whatever the
    collaborators returned, [count] is the number of elements of the array
    listed beside it: [memories], [files] (storage and drive) or
    [properties]. *)
Theorem listings_are_counted
    (cfg : config) {W} (env : collaborators W) (w : W) (req : request) :
  counted "memories" (result (run env (memory_search req) w)) /\
  counted "files" (result (run env (storage_files cfg req) w)) /\
  counted "files" (result (run env (drive_files req) w)) /\
  counted "properties" (result (run env (properties_list req) w)).
Proof.
  unfold counted, memory_search, storage_files, drive_files, properties_list,
    answer_500, handler_try.
  repeat split.
  all: crack; cbn; try (left; discriminate).
  all: right; eexists _, _; repeat split.
Qed.

(** ** GET /api/sheets/investor-data *)

(** X11.  The sheet route reads the fixed range of the configured
    spreadsheet.  The first row returned is the header and the rest are the
    records, so [totalRows] counts the header row too; a sheet without
    values (no [values] at all, or an empty array) gives a 200 with
    [totalRows] 0 and empty [headers] and [records], not an error; a
    failing read gives a 500 with its message. *)
Theorem sheets_split_header_from_records
    (cfg : config) {W} (env : collaborators W) (w : W) (req : request) :
  let c := SheetsValuesGet (spreadsheetId cfg) "Sheet1!A1:Z1000" in
  let x := run env (sheets_investor_data cfg req) w in
  calls (trace x) = [c] /\
  match fst (respond env c w) with
  | Ok values =>
      status (result x) = 200 /\
      exists data,
        Js.get "data" (body (result x)) = VObj data /\
        match default [] values with
        | [] =>
            Js.get "totalRows" data = int 0 /\
            Js.get "headers" data = VArr [] /\
            Js.get "records" data = VArr []
        | first :: rest =>
            Js.get "totalRows" data = int (1 + Z.of_nat (length rest)) /\
            Js.get "headers" data = Js.or_else first (VArr []) /\
            Js.get "records" data = VArr rest
        end
  | Throw m =>
      status (result x) = 500 /\
      Js.get "error" (body (result x)) = VStr m
  end.
Proof.
  unfold sheets_investor_data, answer_500, handler_try. cbn.
  destruct (respond env _ w) as [[values|m] w1]; cbn.
  - next_reply. split; [reflexivity|]. split; [reflexivity|].
    eexists. split; [reflexivity|].
    destruct values as [[|first rest]|]; cbn; repeat split.
    unfold Js.get, len, int. cbn. do 2 f_equal. lia.
  - repeat split.
Qed.

(** ** What the server writes *)

(** X12.  Whatever the request and whatever the collaborators do, every
    insert a route issues carries the server-timestamp sentinel in its
    [timestamp] field, also when the caller supplied a [timestamp] of its
    own. *)
Theorem inserts_carry_server_timestamp
    (cfg : config) {W} (env : collaborators W) (w : W) (rt : route) (req : request) :
  Forall stamps_inserts (calls (trace (run env (handler cfg rt req) w))).
Proof. apply issues_run, handlers_stamp_inserts. Qed.

Lemma run_preserves {A} (I : Store.world -> Prop) (P : call -> Prop)
    (p : prog A) :
  (forall c sw, P c -> I sw -> I (snd (Store.respond c sw))) ->
  (forall sw, I sw -> I (Store.tick sw)) ->
  issues P p ->
  forall sw, I sw -> I (final (run Store.env p sw)).
Proof.
  intros Hstep Htick. induction 1 as [a|c k Hc _ IH|r k _ IH|lv lb d p _ IH];
    intros sw Hsw; simpl.
  - exact Hsw.
  - pose proof (Hstep c sw Hc Hsw) as H1.
    destruct (Store.respond c sw) as [o w1]. specialize (IH o w1 H1).
    destruct (run Store.env (k o) w1) as [[a tr] w2]. exact IH.
  - destruct r; apply IH, Htick; exact Hsw.
  - specialize (IH sw Hsw).
    destruct (run Store.env p sw) as [[a tr] w1]. exact IH.
Qed.

Lemma respond_dated (c : call) (sw : Store.world) :
  stamps_inserts c -> dated sw -> dated (snd (Store.respond c sw)).
Proof.
  intros Hc Hsw. unfold Store.respond.
  destruct (Store.fault sw c); [exact Hsw|].
  destruct c; cbn; try exact Hsw.
  - destruct (q_limit q) as [n|]; [|exact Hsw].
    destruct (n <? 0); exact Hsw.
  - intros other.
    change (Forall (fun d => exists t,
                      Js.get "timestamp" (doc_data d) = VTimestamp t /\
                      t < Store.clock sw + 1)
              (Store.documents other (snd (Store.add collection data sw)))).
    rewrite documents_add.
    assert (Hold : Forall (fun d => exists t,
                      Js.get "timestamp" (doc_data d) = VTimestamp t /\
                      t < Store.clock sw + 1) (Store.documents other sw)).
    { eapply Forall_impl; [apply Hsw|]. intros d [t [H1 H2]].
      exists t. split; [exact H1 | lia]. }
    destruct (decide (collection = other)); [|exact Hold].
    apply Forall_app. split; [exact Hold|].
    constructor; [|constructor].
    exists (Store.clock sw). cbn [doc_data]. rewrite get_resolve, Hc.
    split; [reflexivity | lia].
Qed.

(** X13.  Serving any request keeps the reference store dated: every
    document of every collection carries a timestamp earlier than the
    store's clock, so a record written later is always newer than the
    records already there. *)
Theorem server_keeps_store_dated
    (cfg : config) (rt : route) (req : request) (sw : Store.world) :
  dated sw -> dated (final (run Store.env (handler cfg rt req) sw)).
Proof.
  apply (run_preserves dated stamps_inserts).
  - apply respond_dated.
  - intros s Hs. exact Hs.
  - apply handlers_stamp_inserts.
Qed.

Lemma sample_store_dated : dated sample_store.
Proof.
  intros collection. unfold Store.documents, sample_store, Store.healthy.
  cbn [Store.collections Store.clock].
  destruct (decide (collection = "memory")) as [->|Hm].
  - rewrite lookup_insert_eq. cbn.
    repeat constructor; eexists; (split; [reflexivity | lia]).
  - rewrite lookup_insert_ne by congruence.
    destruct (decide (collection = "properties")) as [->|Hp].
    + rewrite lookup_insert_eq. constructor.
    + rewrite lookup_insert_ne by congruence. rewrite lookup_empty. constructor.
Qed.

Lemma server_keeps_store_dated_witness :
  dated (final (run Store.env
                  (handler (CONFIG (fun _ => None)) MemoryStore
                     (Request "POST" "/api/memory/store"
                        (VObj [("type", VStr "note"); ("content", VStr "x")])
                        (VObj [])))
                  sample_store)).
Proof.
  apply (server_keeps_store_dated (CONFIG (fun _ => None)) MemoryStore).
  exact sample_store_dated.
Defined.

(** ** Routes registered with GET *)

Lemma respond_reads_only (c : call) (sw : Store.world) :
  reads_only c -> holdings (snd (Store.respond c sw)) = holdings sw.
Proof.
  unfold reads_only, Store.respond. intros Hc.
  destruct (Store.fault sw c); [reflexivity|].
  destruct c; cbn; try reflexivity; try discriminate.
  destruct (q_limit q) as [n|]; [|reflexivity].
  destruct (n <? 0); reflexivity.
Qed.

Lemma get_handlers_read_only (cfg : config) (rt : route) (req : request) :
  read_only rt = true -> issues reads_only (handler cfg rt req).
Proof.
  intros H. destruct rt; try discriminate H; unfold handler.
  all: unfold health, api_status, probe, memory_search, storage_files,
    sheets_investor_data, drive_files, properties_list, real_estate_overview,
    count_or_zero, answer_500, handler_try, try_catch, mbind, await, read,
    console, lift, ret.
  all: through_calls; reflexivity.
Qed.

Lemma get_handlers_calls (cfg : config) (rt : route) (req : request)
    {W1 W2} (env1 : collaborators W1) (w1 : W1)
    (env2 : collaborators W2) (w2 : W2) :
  read_only rt = true ->
  calls (trace (run env1 (handler cfg rt req) w1))
  = calls (trace (run env2 (handler cfg rt req) w2)).
Proof.
  intros H. destruct rt; try discriminate H; unfold handler.
  all: unfold health, api_status, probe, memory_search, storage_files,
    sheets_investor_data, drive_files, properties_list, real_estate_overview,
    count_or_zero, answer_500, handler_try, try_catch.
  all: crack; reflexivity.
Qed.

(** X14.  A route registered with GET changes nothing of what the
    reference store holds: its documents, its uploaded files, its clock and
    its id counter are after the request what they were before, whatever
    the parameters and whichever calls fail.  And the calls such a route
    issues are determined by the request alone: they are the same against
    any collaborators, whatever those reply. *)
Theorem get_routes_are_read_only
    (cfg : config) (rt : route) (req : request) (sw : Store.world)
    {W} (env : collaborators W) (w : W) :
  read_only rt = true ->
  let x := run Store.env (handler cfg rt req) sw in
  holdings (final x) = holdings sw /\
  calls (trace (run env (handler cfg rt req) w)) = calls (trace x).
Proof.
  intros H x. split.
  - apply (run_preserves (fun s => holdings s = holdings sw) reads_only).
    + intros c s Hc Hs. rewrite <- Hs. apply respond_reads_only, Hc.
    + intros s Hs. exact Hs.
    + apply get_handlers_read_only, H.
    + reflexivity.
  - apply get_handlers_calls, H.
Qed.

Lemma get_routes_are_read_only_witness :
  let req := list_properties [("city", VStr "Austin")] in
  let x := run Store.env (handler (CONFIG (fun _ => None)) PropertiesList req)
             property_store in
  holdings (final x) = holdings property_store /\
  calls (trace (run Store.env
                  (handler (CONFIG (fun _ => None)) PropertiesList req)
                  unreadable_store))
  = calls (trace x).
Proof.
  intros req.
  apply (get_routes_are_read_only (CONFIG (fun _ => None)) PropertiesList req
           property_store Store.env unreadable_store).
  reflexivity.
Defined.

(** ** The id reported for a document *)

Lemma get_cons (k k' : string) (v : value) (o : fields) :
  Js.get k ((k', v) :: o) =
    if Js.has_own k o then Js.get k o
    else if String.eqb k k' then v else VUndefined.
Proof. apply (get_app k [(k', v)] o). Qed.

(** X15.  The object returned for a document is [{ id: doc.id, ...data }],
    so a document whose data has a field named [id] is reported under that
    field's value, not under the id the store knows it by.  The same holds
    of the answer to POST /api/firestore/properties: when the body has an
    [id] field, [data.id] is the caller's value and the id the store
    assigned is not reported. *)
Theorem reported_id_can_be_shadowed
    {W} (env : collaborators W) (w : W) (req : request) (d : doc) :
  let given := Js.own_props (req_body req) in
  let x := run env (properties_create req) w in
  Js.get "id" (Js.own_props (doc_object d)) =
    (if Js.has_own "id" (doc_data d) then Js.get "id" (doc_data d)
     else VStr (doc_id d)) /\
  match fst (respond env (FirestoreAdd "properties" (propertyData (req_body req))) w) with
  | Ok assigned =>
      status (result x) = 200 /\
      exists data,
        Js.get "data" (body (result x)) = VObj data /\
        Js.get "id" data =
          (if Js.has_own "id" given then Js.get "id" given else VStr assigned)
  | Throw m =>
      status (result x) = 500 /\
      Js.get "error" (body (result x)) = VStr m
  end.
Proof.
  intros given x. split.
  - unfold doc_object, Js.assign. cbn [Js.own_props]. rewrite get_app.
    reflexivity.
  - subst x. unfold properties_create, handler_try. cbn.
    destruct (respond env _ w) as [[assigned|m] w1]; cbn.
    + next_reply. split; [reflexivity|]. eexists. split; [reflexivity|].
      rewrite get_cons, has_own_propertyData, get_propertyData. cbn.
      rewrite orb_false_r. reflexivity.
    + split; reflexivity.
Qed.

(** ** GET /api/firestore/properties *)

Lemma properties_list_run {W} (env : collaborators W) (w : W) (req : request)
    (n : option Z) :
  let q := Js.own_props (req_query req) in
  let issued := Query (property_filters (Js.get "city" q) (Js.get "zipCode" q))
                  None n in
  parsed (req_query req) ->
  Js.parseInt (Js.get_default "limit" (int 50) q) = Ok n ->
  let x := run env (properties_list req) w in
  calls (trace x) = [FirestoreGet "properties" issued] /\
  search_answer "properties"
    (fst (respond env (FirestoreGet "properties" issued) w)) (result x).
Proof.
  intros q issued Hq Hn x. subst x.
  unfold properties_list, handler_try. cbn.
  rewrite (destructure_parsed _ _ _ Hq). cbn. fold q. rewrite Hn. cbn.
  fold issued.
  destruct (respond env (FirestoreGet "properties" issued) w) as [[docs|m] w1]; cbn.
  - next_reply. repeat split. eexists. repeat split.
    unfold Js.get, len. cbn. rewrite length_map. reflexivity.
  - repeat split.
Qed.

Lemma filter_sublist {A} (f : A -> bool) (l : list A) :
  sublist (List.filter f l) l.
Proof.
  induction l as [|x l IH]; simpl; [constructor|].
  destruct (f x); [apply sublist_skip | apply sublist_cons]; exact IH.
Qed.

Lemma truthy_text (s : string) : s <> "" -> Js.truthy (VStr s) = true.
Proof.
  intros H. cbn. destruct (String.eqb s "") eqn:E; [|reflexivity].
  apply String.eqb_eq in E. contradiction.
Qed.

(** X16.  For a request whose [city] and [zipCode] parameters are
    non-empty strings, the listing issues one query on [properties] with
    both equality filters and no ordering, limited to the numeral given as
    [limit], an integer up to 2^53 - 1 (beyond, [parseInt] rounds), or to
    50 when there is no [limit] parameter; it relays the store's reply.  The documents the reference store settles that query
    with are at most that many, each with that city and that zip code; no
    ordering is applied to them: they are a sub-list of the collection as
    the reference store holds it. *)
Theorem properties_list_by_city_and_zip
    {W} (env : collaborators W) (w : W) (sw : Store.world) (req : request)
    (city zip : string) (N : nat) :
  let q := Js.own_props (req_query req) in
  let issued :=
    Query [WhereEq "city" (VStr city); WhereEq "zipCode" (VStr zip)] None
      (Some (Z.of_nat N)) in
  Js.get "city" q = VStr city ->
  city <> "" ->
  Js.get "zipCode" q = VStr zip ->
  zip <> "" ->
  Js.get "limit" q = VUndefined /\ N = 50%nat \/ Js.get "limit" q = VStr (decimal N) ->
  Z.of_nat N <= Js.MAX_SAFE_INTEGER ->
  let x := run env (properties_list req) w in
  calls (trace x) = [FirestoreGet "properties" issued] /\
  search_answer "properties"
    (fst (respond env (FirestoreGet "properties" issued) w)) (result x) /\
  exists docs,
    fst (Store.settle (FirestoreGet "properties" issued) sw) = Ok docs /\
    (length docs <= N)%nat /\
    Forall (fun d => Js.get "city" (doc_data d) = VStr city /\
                     Js.get "zipCode" (doc_data d) = VStr zip) docs /\
    sublist docs (Store.documents "properties" sw).
Proof.
  intros q issued Hc Hcne Hz Hzne Hl Hsafe x.
  assert (Hq : parsed (req_query req)).
  { split; intros E; unfold q in Hc; rewrite E in Hc; discriminate. }
  assert (Hn : Js.parseInt (Js.get_default "limit" (int 50) q)
               = Ok (Some (Z.of_nat N))).
  { unfold Js.get_default. destruct Hl as [[-> ->]| ->].
    - reflexivity.
    - apply parseInt_decimal, Hsafe. }
  assert (Hf : property_filters (Js.get "city" q) (Js.get "zipCode" q)
               = q_where issued).
  { unfold property_filters. rewrite Hc, Hz, !truthy_text by assumption.
    reflexivity. }
  pose proof (properties_list_run env w req _ Hq Hn) as H.
  cbn zeta in H. fold q in H. rewrite Hf in H.
  split; [apply H|]. split; [apply H|].
  cbn. destruct (Z.ltb_spec (Z.of_nat N) 0); [lia|]. cbn.
  eexists. split; [reflexivity|]. repeat split.
  - pose proof (eval_query_length issued (Z.of_nat N)
                  (Store.documents "properties" sw)). lia.
  - eapply Forall_impl; [apply eval_query_matches|].
    intros d Hd. cbn in Hd. rewrite andb_true_r in Hd.
    apply andb_true_iff in Hd as [H1 H2].
    apply value_eqb_eq in H1, H2. split; assumption.
  - unfold Store.eval_query, Store.order_by. cbn [q_orderBy q_where issued].
    etransitivity; [apply sublist_take | apply filter_sublist].
Qed.

Lemma properties_list_by_city_and_zip_witness :
  let req := list_properties [("city", VStr "Austin"); ("zipCode", VStr "78701")] in
  calls (trace (run Store.env (properties_list req) property_store))
  = [FirestoreGet "properties"
       (Query [WhereEq "city" (VStr "Austin"); WhereEq "zipCode" (VStr "78701")]
          None (Some 50))].
Proof.
  intros req.
  apply (properties_list_by_city_and_zip Store.env property_store property_store
           req "Austin" "78701" 50).
  - reflexivity.
  - discriminate.
  - reflexivity.
  - discriminate.
  - left. split; reflexivity.
  - discriminate.
Defined.

(** ** Storing a memory, then searching for it *)

Lemma newest_heads_the_order (field : string) (d : doc) (l : list doc) :
  d ∈ l ->
  (forall y, y ∈ l -> y = d \/ Store.key_of field y < Store.key_of field d) ->
  exists rest, merge_sort (Store.descending field) l = d :: rest.
Proof.
  intros Hd Hl.
  pose proof (StronglySorted_merge_sort (Store.descending field) l) as Hs.
  pose proof (merge_sort_Permutation (Store.descending field) l) as Hp.
  destruct (merge_sort (Store.descending field) l) as [|x rest].
  - rewrite <- Hp in Hd. inversion Hd.
  - assert (Hx : x ∈ l) by (rewrite <- Hp; left).
    destruct (Hl x Hx) as [->|Hlt]; [eauto|].
    rewrite <- Hp in Hd. apply elem_of_cons in Hd as [->|Hd]; [eauto|].
    apply StronglySorted_inv in Hs as [_ Hs].
    rewrite Forall_forall in Hs. specialize (Hs d Hd).
    unfold Store.descending in Hs. lia.
Qed.

Lemma elem_of_filter_list {A} (f : A -> bool) (l : list A) (x : A) :
  x ∈ List.filter f l <-> x ∈ l /\ f x = true.
Proof.
  rewrite !list_elem_of_In. apply filter_In.
Qed.

(** X17.  On a reference store that rejects nothing and whose documents
    are all dated before its clock: after [POST /api/memory/store] of a
    body whose [type] and [content] are non-empty strings, a
    [GET /api/memory/search] for that type with no [tags] and a limit from
    1 to 2^53 - 1 answers 200 and lists the new record first, under the id the
    first answer reported and with the caller's content. *)
Theorem stored_memory_is_found_first
    (sw : Store.world) (post get : request) (T C : string) (N : nat) :
  let b := Js.own_props (req_body post) in
  let q := Js.own_props (req_query get) in
  (forall c, Store.fault sw c = None) ->
  dated sw ->
  Js.get "type" b = VStr T ->
  T <> "" ->
  Js.get "content" b = VStr C ->
  C <> "" ->
  Js.get "type" q = VStr T ->
  Js.truthy (Js.get "tags" q) = false ->
  Js.get "limit" q = VStr (decimal (S N)) ->
  Z.of_nat (S N) <= Js.MAX_SAFE_INTEGER ->
  let x := run Store.env (memory_store post) sw in
  let y := run Store.env (memory_search get) (final x) in
  exists id stored found first rest,
    status (result x) = 200 /\
    Js.get "data" (body (result x)) = VObj stored /\
    Js.get "id" stored = VStr id /\
    status (result y) = 200 /\
    Js.get "data" (body (result y)) = VObj found /\
    Js.get "memories" found = VArr (first :: rest) /\
    Js.get "id" (Js.own_props first) = VStr id /\
    Js.get "type" (Js.own_props first) = VStr T /\
    Js.get "content" (Js.own_props first) = VStr C.
Proof.
  intros b q Hfault Hdated Ht HT HC HCne Hqt Hqtags Hl Hsafe x y.
  assert (Hc : Js.truthy (Js.get "content" b) = true).
  { rewrite HC. apply truthy_text, HCne. }
  assert (Htt : Js.truthy (Js.get "type" b) = true).
  { rewrite Ht. apply truthy_text, HT. }
  pose proof (truthy_field_parsed _ _ Htt) as Hb.
  set (entry := memoryEntry (Js.get "type" b) (Js.get "content" b)
                  (Js.get_default "tags" (VArr []) b)
                  (Js.get_default "metadata" (VObj []) b)).
  set (id := Store.auto_id (Store.next_id sw)).
  set (d := Doc id (Store.resolve (Store.clock sw) entry)).
  set (sw1 := Store.tick (snd (Store.add "memory" entry sw))).
  assert (Hx : x = run Store.env (memory_store post) sw) by reflexivity.
  clearbody x.
  unfold memory_store, handler_try in Hx. cbn in Hx.
  rewrite (destructure_parsed _ _ _ Hb) in Hx. cbn in Hx.
  fold b in Hx. rewrite Htt, Hc in Hx. cbn in Hx. fold entry in Hx.
  unfold Store.respond in Hx. rewrite Hfault in Hx. cbn in Hx.
  fold id in Hx.
  assert (Hfinal : final x = sw1) by (rewrite Hx; reflexivity).
  assert (Hq : parsed (req_query get)).
  { split; intros E; unfold q in Hqt; rewrite E in Hqt; discriminate. }
  assert (Hn : Js.parseInt (Js.get_default "limit" (int 10) q)
               = Ok (Some (Z.of_nat (S N)))).
  { unfold Js.get_default. rewrite Hl. apply parseInt_decimal, Hsafe. }
  pose proof (memory_search_run Store.env sw1 get _ Hq Hn) as [_ Hy].
  fold q in Hy. rewrite <- Hfinal in Hy. fold y in Hy.
  unfold memory_filters in Hy. rewrite Hqt, Hqtags, truthy_text in Hy by exact HT.
  rewrite Hfinal in Hy.
  cbn [List.app] in Hy.
  set (issued := Query [WhereEq "type" (VStr T)] (Some ("timestamp", "desc"))
                   (Some (Z.of_nat (S N)))) in Hy.
  assert (Hdocs : Store.documents "memory" sw1
                  = (Store.documents "memory" sw ++ [d])%list).
  { unfold sw1, Store.documents. cbn. rewrite lookup_insert_eq. reflexivity. }
  assert (Hkey : Js.get "timestamp" (doc_data d) = VTimestamp (Store.clock sw)).
  { unfold d. cbn [doc_data]. rewrite get_resolve. reflexivity. }
  assert (Hreply : exists rest,
            fst (respond Store.env (FirestoreGet "memory" issued) sw1)
            = Ok (d :: rest)).
  { cbn [respond Store.env]. unfold Store.respond.
    replace (Store.fault sw1) with (Store.fault sw) by reflexivity.
    rewrite Hfault. cbn [Store.settle q_limit issued].
    destruct (Z.ltb_spec (Z.of_nat (S N)) 0); [lia|]. cbn [fst].
    unfold Store.eval_query, Store.order_by. cbn [q_orderBy q_where issued].
    cbn [String.eqb Ascii.eqb Bool.eqb].
    rewrite Hdocs.
    match goal with
    | |- context [merge_sort _ ?l] =>
        destruct (newest_heads_the_order "timestamp" d l) as [rest Hrest]
    end.
    - apply elem_of_filter_list. split.
      + apply elem_of_filter_list. split.
        * apply elem_of_app. right. left.
        * cbn [forallb Store.matches]. rewrite andb_true_r. apply value_eqb_eq.
          unfold d. cbn [doc_data]. rewrite get_resolve.
          unfold entry. cbn. rewrite Ht. reflexivity.
      + apply bool_decide_eq_true. unfold Store.order_key.
        rewrite Hkey. eauto.
    - intros z Hz. apply elem_of_filter_list in Hz as [Hz _].
      apply elem_of_filter_list in Hz as [Hz _].
      apply elem_of_app in Hz as [Hz|Hz].
      + right. specialize (Hdated "memory"). rewrite Forall_forall in Hdated.
        destruct (Hdated z Hz) as [t [Hzt Hlt]].
        unfold Store.key_of, Store.order_key. rewrite Hzt, Hkey. cbn. exact Hlt.
      + left. apply list_elem_of_singleton in Hz. exact Hz.
    - rewrite Hrest. rewrite Nat2Z.id. cbn [take]. eauto. }
  destruct Hreply as [rest Hreply]. rewrite Hreply in Hy.
  destruct Hy as [Hs [_ [found [Hfound [Hmem _]]]]].
  exists id. eexists. exists found, (doc_object d), (map doc_object rest).
  split; [rewrite Hx; reflexivity|]. split; [rewrite Hx; reflexivity|].
  split; [reflexivity|].
  split; [exact Hs|]. split; [exact Hfound|]. split; [exact Hmem|].
  unfold d, entry, doc_object. cbn. rewrite Ht, HC. repeat split.
Qed.

Lemma stored_memory_is_found_first_witness :
  let post := Request "POST" "/api/memory/store"
                (VObj [("type", VStr "note"); ("content", VStr "Offer accepted")])
                (VObj []) in
  let get := search [("type", VStr "note"); ("limit", VStr "1")] in
  let x := run Store.env (memory_store post) sample_store in
  let y := run Store.env (memory_search get) (final x) in
  exists id stored found first rest,
    status (result x) = 200 /\
    Js.get "data" (body (result x)) = VObj stored /\
    Js.get "id" stored = VStr id /\
    status (result y) = 200 /\
    Js.get "data" (body (result y)) = VObj found /\
    Js.get "memories" found = VArr (first :: rest) /\
    Js.get "id" (Js.own_props first) = VStr id /\
    Js.get "type" (Js.own_props first) = VStr "note" /\
    Js.get "content" (Js.own_props first) = VStr "Offer accepted".
Proof.
  intros post get.
  apply (stored_memory_is_found_first sample_store post get
           "note" "Offer accepted" 0).
  - reflexivity.
  - apply sample_store_dated.
  - reflexivity.
  - discriminate.
  - reflexivity.
  - discriminate.
  - reflexivity.
  - reflexivity.
  - reflexivity.
  - discriminate.
Defined.

(** ** Configuration *)

Lemma env_or_not_empty (env : string -> option string) (name fallback : string) :
  fallback <> "" -> env_or env name fallback <> "".
Proof.
  intros H. unfold env_or. destruct (env name) as [v|]; [|exact H].
  destruct (String.eqb v "") eqn:E; [exact H|].
  apply String.eqb_neq in E. exact E.
Qed.

(** X18.  Whatever the process environment holds, no configuration value
    is empty and the port is truthy: a variable that is unset or set to the
    empty string takes its default. *)
Theorem configuration_is_never_empty (env : string -> option string) :
  let cfg := CONFIG env in
  project cfg <> "" /\ location cfg <> "" /\ bucket cfg <> "" /\
  credentials cfg <> "" /\ spreadsheetId cfg <> "" /\ nodeEnv cfg <> "" /\
  Js.truthy (PORT env) = true /\
  (env "NODE_ENV" = None \/ env "NODE_ENV" = Some "" ->
   nodeEnv cfg = "production") /\
  (env "PORT" = None \/ env "PORT" = Some "" -> PORT env = int 8080).
Proof.
  cbn. repeat split; try (apply env_or_not_empty; discriminate).
  - unfold PORT. destruct (env "PORT") as [v|]; [|reflexivity].
    destruct (String.eqb v "") eqn:E; [reflexivity|].
    cbn. rewrite E. reflexivity.
  - unfold env_or. intros [->| ->]; reflexivity.
  - unfold PORT. intros [->| ->]; reflexivity.
Qed.

(** X19.  The fallback middleware of a server configured from the process
    environment discloses the message of an error exactly when [NODE_ENV]
    is set to ["development"]; with the variable unset, empty or set to
    anything else the answer has no [message]. *)
Theorem error_message_needs_development_env
    (environment : string -> option string)
    {W} (env : collaborators W) (w : W) (err : string) (req : request) :
  let r := result (run env (error_handler (CONFIG environment) err req) w) in
  status r = 500 /\
  Js.get "message" (body r) =
    (if decide (environment "NODE_ENV" = Some "development")
     then VStr err else VUndefined).
Proof.
  unfold error_handler. cbn. next_reply. split; [reflexivity|].
  unfold Js.get. cbn. unfold env_or.
  destruct (environment "NODE_ENV") as [v|] eqn:E.
  - destruct (String.eqb v "") eqn:Ev.
    + apply String.eqb_eq in Ev. subst v. cbn.
      destruct (decide _) as [H|H]; [discriminate|reflexivity].
    + destruct (String.eqb v "development") eqn:Ed.
      * apply String.eqb_eq in Ed. subst v.
        destruct (decide _) as [H|H]; [reflexivity|contradiction].
      * apply String.eqb_neq in Ed.
        destruct (decide _) as [H|H]; [congruence|reflexivity].
  - cbn. destruct (decide _) as [H|H]; [discriminate|reflexivity].
Qed.

(** ** Routing *)

(** X20.  Every registered route is served by its own handler: no entry of
    the route table is shadowed by an earlier one, whatever the body and
    the query of the request. *)
Theorem no_route_is_shadowed (cfg : config) :
  Forall (fun entry =>
            let '(method, path, rt) := entry in
            forall reqBody reqQuery,
              app cfg (Request method path reqBody reqQuery)
              = handler cfg rt (Request method path reqBody reqQuery))
    route_table.
Proof.
  unfold route_table. repeat constructor.
Qed.

(** X23.  A request that matches no registered route, by method and by
    path, reaches no collaborator.  When its method reads OPTIONS it is a preflight, which the CORS policy answers itself,
    with status 204 and no body, whatever the path; otherwise it gets the
    404 envelope, with its path as sent and a timestamp. *)
Theorem unrouted_request_is_answered
    (cfg : config) {W} (env : collaborators W) (w : W) (req : request) :
  find_route (normalize_method (req_method req)) (normalize_path (req_path req))
    route_table = None ->
  let x := run env (app cfg req) w in
  calls (trace x) = [] /\
  if preflight (req_method req)
  then result x = no_content /\ final x = w
  else
    status (result x) = 404 /\
    Js.get "success" (body (result x)) = VBool false /\
    Js.get "error" (body (result x)) = VStr "Endpoint not found" /\
    Js.get "path" (body (result x)) = VStr (req_path req) /\
    present "timestamp" (body (result x)).
Proof.
  intros H. unfold app, application. cbn [msg_method msg_payload msg_path msg_query].
  destruct (preflight (req_method req)).
  - repeat split.
  - unfold dispatch. cbn [req_method req_path]. rewrite H.
    unfold not_found, present. cbn.
    next_reply. repeat split. discriminate.
Qed.

Lemma unrouted_request_is_answered_witness :
  let cfg := CONFIG (fun _ => None) in
  let x := run Store.env (app cfg (Request "GET" "/api/nope" VUndefined (VObj [])))
             sample_store in
  let y := run Store.env (app cfg (Request "OPTIONS" "/api/nope" VUndefined (VObj [])))
             sample_store in
  (status (result x) = 404 /\
   Js.get "error" (body (result x)) = VStr "Endpoint not found" /\
   Js.get "path" (body (result x)) = VStr "/api/nope" /\
   calls (trace x) = []) /\
  (status (result y) = 204 /\ body (result y) = [] /\ calls (trace y) = []).
Proof.
  intros cfg. split.
  - destruct (unrouted_request_is_answered cfg Store.env sample_store
                (Request "GET" "/api/nope" VUndefined (VObj [])) eq_refl)
      as (Ht & Hs & _ & He & Hp & _).
    repeat split; assumption.
  - destruct (unrouted_request_is_answered cfg Store.env sample_store
                (Request "OPTIONS" "/api/nope" VUndefined (VObj [])) eq_refl)
      as (Ht & Hr & _).
    rewrite Hr. split; [reflexivity|]. split; [reflexivity | exact Ht].
Defined.

(** X24.  A message whose body [express.json()] refuses, malformed or over
    the limit, reaches no route: unless it is a preflight, it is answered
    by the error-handling middleware, with status 500 and the fixed error
    text, after one error line and without any collaborator call; the
    parser's message is disclosed only in development. *)
Theorem refused_body_reaches_no_route
    (cfg : config) {W} (env : collaborators W) (w : W) (m : message)
    (error : string) :
  msg_payload m = Throw error ->
  preflight (msg_method m) = false ->
  let x := run env (application cfg m) w in
  trace x = [ELog "error" "Unhandled error:" error] /\
  status (result x) = 500 /\
  Js.get "success" (body (result x)) = VBool false /\
  Js.get "error" (body (result x)) = VStr "Internal server error" /\
  Js.get "message" (body (result x)) =
    (if String.eqb (nodeEnv cfg) "development" then VStr error else VUndefined).
Proof.
  intros Hp Hm. unfold application. rewrite Hm, Hp.
  unfold error_handler. cbn. next_reply. repeat split.
Qed.

Lemma refused_body_reaches_no_route_witness :
  let m := Message "POST" "/api/memory/store"
             (Throw "Unexpected token } in JSON at position 18") (VObj []) in
  let x := run Store.env (application (CONFIG (fun _ => None)) m) sample_store in
  trace x = [ELog "error" "Unhandled error:"
               "Unexpected token } in JSON at position 18"] /\
  status (result x) = 500 /\
  Js.get "success" (body (result x)) = VBool false /\
  Js.get "error" (body (result x)) = VStr "Internal server error" /\
  Js.get "message" (body (result x)) = VUndefined.
Proof.
  intros m.
  apply (refused_body_reaches_no_route (CONFIG (fun _ => None)) Store.env
           sample_store m "Unexpected token } in JSON at position 18").
  - reflexivity.
  - reflexivity.
Defined.

(** ** Startup *)

(** Case analysis along the SDK calls of a start, in order, leaving out
    the cases that contradict what is known of the SDKs. *)
Ltac boot_steps th :=
  repeat (cbn [negb fst snd Boot.assigned Boot.invoked Boot.output List.app];
    match goal with
    | |- context [match th ?s with Some _ => _ | None => _ end] =>
        let E := fresh "E" in
        destruct (th s) eqn:E; try discriminate
    end);
  cbn [negb fst snd Boot.assigned Boot.invoked Boot.output List.app].

Lemma say_all_output (lines : list string) (st : Boot.state) :
  Boot.say_all lines st =
    (Ok tt,
     Boot.State (Boot.assigned st) (Boot.invoked st)
       (Boot.output st ++ map (fun line => ("log", line, "")) lines)%list).
Proof.
  revert st. induction lines as [|line rest IH]; intros st.
  - destruct st. cbn. rewrite app_nil_r. reflexivity.
  - cbn [Boot.say_all]. unfold Boot.bind, Boot.say. rewrite IH. cbn.
    rewrite <- app_assoc. reflexivity.
Qed.

(** X21.  Starting the process has three outcomes, and none of them is an
    exit with code 0.  Either the server listens on the configured port:
    then all six client handles were assigned, in order, none of the SDK
    calls made threw, the last of them was [app.listen], and the console
    ends on the banner.  Or [app.listen] returned and the server then
    failed to bind the port: all of the above but the banner holds, the
    process is brought down by the unhandled error, with exit code 1, and
    the program has written no error line.  Or the process calls
    [process.exit(1)]: then the last SDK call made is one that threw, every
    call before it succeeded, the handles assigned are an initial part of
    the six, and the last console line is an error line. *)
Theorem startup_outcomes
    (k : Boot.sdk) (cfg : config) (port : value) :
  let x := Boot.main k cfg port in
  let ready :=
    Boot.assigned (snd x) = services /\
    Forall (fun s => Boot.throws k s = None) (Boot.invoked (snd x)) /\
    last (Boot.invoked (snd x)) = Some Boot.AppListen in
  Boot.exit_code (fst x) <> Some 0 /\
  ((fst x = Boot.Listening port /\
    Boot.listen_error k = None /\
    ready /\
    exists before,
      Boot.output (snd x) =
        (before ++ map (fun line => ("log", line, "")) (Boot.banner cfg port))%list)
   \/
   (exists error,
      fst x = Boot.Uncaught error /\
      Boot.listen_error k = Some error /\
      ready /\
      Forall (fun line => fst (fst line) = "log") (Boot.output (snd x)))
   \/
   (fst x = Boot.Exited 1 /\
    (exists s before,
       Boot.invoked (snd x) = (before ++ [s])%list /\
       Boot.throws k s <> None /\
       Forall (fun s' => Boot.throws k s' = None) before) /\
    (exists rest, services = (Boot.assigned (snd x) ++ rest)%list) /\
    exists text detail before,
      Boot.output (snd x) = (before ++ [("error", text, detail)])%list)).
Proof.
  destruct k as [n th failure].
  unfold Boot.main, Boot.startServer, Boot.initializeServices, Boot.attempt,
    Boot.bind, Boot.invoke, Boot.assign, Boot.say, Boot.pure, Boot.initial,
    services.
  cbn [Boot.throws Boot.apps_length Boot.listen_error Boot.assigned
       Boot.invoked Boot.output List.app].
  destruct (n =? 0)%nat; boot_steps th.
  all: try (destruct failure as [error|]; [|rewrite say_all_output];
            cbn [negb fst snd Boot.assigned Boot.invoked Boot.output List.app]).
  all: (split; [cbn; discriminate|]).
  all: try solve [
    (* process.exit(1) *)
    right; right; split; [reflexivity|]; split;
    [ match goal with
      | |- exists s before, ?l = _ /\ _ =>
          exists (List.last l Boot.AppListen), (removelast l)
      end;
      cbn [List.last removelast List.app];
      split; [reflexivity|];
      split; [congruence | repeat constructor; assumption]
    | split; [eexists; reflexivity|];
      match goal with
      | |- exists text detail before, ?l = _ =>
          eexists; eexists; exists (removelast l)
      end;
      cbn [removelast List.app]; reflexivity ] ].
  all: try solve [
    (* the port cannot be bound *)
    right; left; eexists; split; [reflexivity|]; split; [reflexivity|];
    split;
    [ split; [reflexivity|];
      split; [repeat constructor; assumption | reflexivity]
    | repeat constructor ] ].
  (* listening *)
  all: left; split; [reflexivity|]; split; [reflexivity|]; split;
    [ split; [reflexivity|];
      split; [repeat constructor; assumption | reflexivity]
    | match goal with
      | |- exists before, ?l = _ => exists (firstn 7 l)
      end; reflexivity ].
Qed.

(** X22.  When one of the SDK calls that set up the clients throws (for
    [admin.initializeApp], when no Firebase app exists yet), the process
    exits with code 1 without ever calling [app.listen]: it reports a
    service initialization error, with the message of the first call that
    threw, and ends on the line that asks to check the credentials. *)
Theorem failed_service_keeps_port_closed
    (k : Boot.sdk) (cfg : config) (port : value) (s : Boot.step)
    (message : string) :
  s <> Boot.AppListen ->
  (s = Boot.AdminInitializeApp -> Boot.apps_length k = 0%nat) ->
  Boot.throws k s = Some message ->
  let x := Boot.main k cfg port in
  fst x = Boot.Exited 1 /\
  ~ In Boot.AppListen (Boot.invoked (snd x)) /\
  Boot.assigned (snd x) <> services /\
  exists first reported before,
    last (Boot.invoked (snd x)) = Some first /\
    Boot.throws k first = Some reported /\
    Boot.output (snd x) =
      (before ++
       [("error", "❌ Service initialization error:", reported);
        ("error",
         nl +:+ "❌ Failed to initialize services. Check credentials and configuration.",
         "")])%list.
Proof.
  intros Hs Happ Hthrows.
  destruct k as [n th]. cbn [Boot.throws Boot.apps_length] in *.
  unfold Boot.main, Boot.startServer, Boot.initializeServices, Boot.attempt,
    Boot.bind, Boot.invoke, Boot.assign, Boot.say, Boot.pure, Boot.initial,
    services.
  cbn [Boot.throws Boot.apps_length Boot.assigned Boot.invoked Boot.output
       List.app].
  destruct s; [ rewrite (Happ eq_refl); cbn [Nat.eqb]
              | destruct (n =? 0)%nat .. | congruence ].
  all: boot_steps th.
  all: split; [reflexivity|]; split;
    [ intros H; cbn in H;
      repeat (destruct H as [H|H]; [discriminate H|]); exact H
    | split; [discriminate|];
      match goal with
      | |- exists first reported before, _ /\ _ /\ ?l = _ =>
          eexists; eexists; exists (removelast (removelast l))
      end;
      cbn [removelast List.app];
      split; [reflexivity|]; split; [eassumption|reflexivity] ].
Qed.

Lemma failed_service_keeps_port_closed_witness :
  let k := sdk_failing_at Boot.NewVertexAI "Could not load the default credentials" in
  let x := Boot.main k (CONFIG (fun _ => None)) (int 8080) in
  fst x = Boot.Exited 1 /\
  ~ In Boot.AppListen (Boot.invoked (snd x)) /\
  Boot.assigned (snd x) <> services /\
  exists first reported before,
    last (Boot.invoked (snd x)) = Some first /\
    Boot.throws k first = Some reported /\
    Boot.output (snd x) =
      (before ++
       [("error", "❌ Service initialization error:", reported);
        ("error",
         nl +:+ "❌ Failed to initialize services. Check credentials and configuration.",
         "")])%list.
Proof.
  intros k.
  apply (failed_service_keeps_port_closed k (CONFIG (fun _ => None)) (int 8080)
           Boot.NewVertexAI "Could not load the default credentials").
  - discriminate.
  - discriminate.
  - reflexivity.
Defined.
